(** * Holder Radar v1: the scoring pipeline of [app.py]

    A shallow embedding of the helpers ([scale], [years_since],
    [is_stable_or_wrapped]), of the five sub-score functions and of the
    scoring step of [load_data], followed by the properties of the
    specification that concern them.

    Numbers.  Python's [float] is an IEEE binary64.  The functions are written
    once, over an interface [PyFloat] of the float operations they use, and
    read at two instances:
    - [xnum_ops], exact rational arithmetic with a NaN (no rounding, no
      overflow, no infinities), where the general statements are proved;
    - [float_ops], the kernel's binary64 numbers, where the code is evaluated
      on concrete records with the rounding Python performs, and where the
      statements that need no arithmetic are proved as well.
    What [float()] makes of a text is a parameter of both.

    Values.  A cell of a row is [None], a number or a text ([value]); a
    Python integer is identified with the float of the same value (integers
    beyond the range of a float, on which [float()] raises OverflowError, are
    not modelled).  Texts are strings of bytes: [lower] and [int()] act on
    ASCII.  [date.today()] is a parameter [today].  Exceptions are explicit:
    a function that can raise returns a [result]. *)

From Stdlib Require Import ZArith QArith Qreduction List String Ascii Bool Lia Lqa Floats.
From Stdlib Require Import Permutation Sorted.
Import ListNotations.

Set Implicit Arguments.
Set Warnings "-inexact-float".

(** ** Exceptions *)

Inductive exn : Type :=
| TypeError
| ValueError
| ZeroDivisionError
| IndexError.

Inductive result (A : Type) : Type :=
| Ok (a : A)
| Raise (e : exn).

Arguments Ok {A} a.
Arguments Raise {A} e.

Definition bind {A B : Type} (m : result A) (k : A -> result B) : result B :=
  match m with
  | Ok a => k a
  | Raise e => Raise e
  end.

Declare Scope py_scope.
Delimit Scope py_scope with py.
Notation "x <- m ;; k" := (bind m (fun x => k))
  (at level 61, m at next level, right associativity) : py_scope.
Open Scope py_scope.

(** [try: body  except (classes): handler]: only the listed classes are
    handled, any other exception propagates. *)
Definition try_except {A : Type} (body : result A) (handled : exn -> bool)
    (handler : result A) : result A :=
  match body with
  | Ok a => Ok a
  | Raise e => if handled e then handler else Raise e
  end.

(** [except (TypeError, ValueError)] *)
Definition type_or_value (e : exn) : bool :=
  match e with
  | TypeError | ValueError => true
  | _ => false
  end.

(** [except (TypeError, ValueError, ZeroDivisionError)] *)
Definition type_value_or_zerodiv (e : exn) : bool :=
  match e with
  | TypeError | ValueError | ZeroDivisionError => true
  | _ => false
  end.

(** [try: return body  except Exception: return default] *)
Definition try_or {A : Type} (body : result A) (default : A) : A :=
  match body with
  | Ok a => a
  | Raise _ => default
  end.

Fixpoint mapM {A B : Type} (f : A -> result B) (l : list A) : result (list B) :=
  match l with
  | [] => Ok []
  | a :: l' => b <- f a ;; bs <- mapM f l' ;; Ok (b :: bs)
  end.

(** ** Text *)

Open Scope string_scope.
Open Scope list_scope.

(** [str.lower()], on the ASCII letters *)
Definition lower_ascii (c : ascii) : ascii :=
  let n := nat_of_ascii c in
  if (65 <=? n)%nat && (n <=? 90)%nat then ascii_of_nat (n + 32) else c.

Fixpoint lower (s : string) : string :=
  match s with
  | EmptyString => EmptyString
  | String c s' => String (lower_ascii c) (lower s')
  end.

(** [sub in s] on texts *)
Fixpoint contains (sub s : string) : bool :=
  String.prefix sub s ||
  match s with
  | EmptyString => false
  | String _ s' => contains sub s'
  end.

(** [sub] occurs in [s]: the meaning of [sub in s] *)
Definition occurs_in (sub s : string) : Prop :=
  exists pre post : string, s = (pre ++ sub ++ post)%string.

(** [x in {...}] for a set of texts *)
Definition mem (x : string) (l : list string) : bool :=
  existsb (String.eqb x) l.

(** [s.split(sep)] for a separator of one character: never empty *)
Fixpoint split (sep : ascii) (s : string) : list string :=
  match s with
  | EmptyString => [EmptyString]
  | String c s' =>
      if Ascii.eqb c sep then EmptyString :: split sep s'
      else match split sep s' with
           | p :: ps => String c p :: ps
           | [] => [String c EmptyString]
           end
  end.

(** the ASCII characters that [int()] strips at both ends *)
Definition is_space (c : ascii) : bool :=
  let n := nat_of_ascii c in
  ((9 <=? n)%nat && (n <=? 13)%nat) || ((28 <=? n)%nat && (n <=? 32)%nat).

Fixpoint lstrip (s : string) : string :=
  match s with
  | EmptyString => EmptyString
  | String c s' => if is_space c then lstrip s' else s
  end.

Fixpoint rstrip (s : string) : string :=
  match s with
  | EmptyString => EmptyString
  | String c s' =>
      match rstrip s' with
      | EmptyString => if is_space c then EmptyString else String c EmptyString
      | t => String c t
      end
  end.

Definition digit_val (c : ascii) : option Z :=
  let n := nat_of_ascii c in
  if (48 <=? n)%nat && (n <=? 57)%nat then Some (Z.of_nat n - 48)%Z else None.

(** decimal digits, single underscores allowed between two digits *)
Fixpoint digits (acc : Z) (after_digit : bool) (s : string) : option Z :=
  match s with
  | EmptyString => if after_digit then Some acc else None
  | String c s' =>
      match digit_val c with
      | Some d => digits (10 * acc + d)%Z true s'
      | None =>
          if Ascii.eqb c "_" && after_digit then digits acc false s' else None
      end
  end.

(** [int(s)] on a text of ASCII characters: surrounding white space, an
    optional sign, then the digits *)
Definition py_int (s : string) : result Z :=
  let t := rstrip (lstrip s) in
  let r :=
    match t with
    | String "+" u => digits 0 false u
    | String "-" u => option_map Z.opp (digits 0 false u)
    | _ => digits 0 false t
    end in
  match r with
  | Some n => Ok n
  | None => Raise ValueError
  end.

(** [l[i]] *)
Definition index {A : Type} (l : list A) (i : nat) : result A :=
  match nth_error l i with
  | Some a => Ok a
  | None => Raise IndexError
  end.

(** ** Calendar dates ([datetime.date], proleptic Gregorian) *)

Open Scope Z_scope.

Record date : Type := { year : Z; month : Z; day : Z }.

Definition is_leap (y : Z) : bool :=
  (y mod 4 =? 0) && (negb (y mod 100 =? 0) || (y mod 400 =? 0)).

Definition days_in_month (y m : Z) : Z :=
  if m =? 2 then (if is_leap y then 29 else 28)
  else if (m =? 4) || (m =? 6) || (m =? 9) || (m =? 11) then 30
  else 31.

(** days before January 1st of year [y] *)
Definition days_before_year (y : Z) : Z :=
  let y1 := y - 1 in
  y1 * 365 + y1 / 4 - y1 / 100 + y1 / 400.

(** days of year [y] before the first of month [m] *)
Definition days_before_month (y m : Z) : Z :=
  fold_left (fun acc k => acc + days_in_month y k)
            (map Z.of_nat (seq 1 (Z.to_nat (m - 1)))) 0.

(** [date(y, m, d)]: ValueError outside the calendar *)
Definition date_new (y m d : Z) : result date :=
  if (1 <=? y) && (y <=? 9999) && (1 <=? m) && (m <=? 12)
     && (1 <=? d) && (d <=? days_in_month y m)
  then Ok {| year := y; month := m; day := d |}
  else Raise ValueError.

(** [dt.toordinal()]: 1 for 0001-01-01 *)
Definition toordinal (dt : date) : Z :=
  days_before_year (year dt) + days_before_month (year dt) (month dt) + day dt.

(** [(a - b).days] *)
Definition sub_days (a b : date) : Z := toordinal a - toordinal b.

Definition digit_char (k : Z) : ascii := ascii_of_nat (48 + Z.to_nat k).

Definition pad2 (n : Z) : string :=
  String (digit_char (n / 10 mod 10)) (String (digit_char (n mod 10)) EmptyString).

Definition pad4 (n : Z) : string :=
  String (digit_char (n / 1000 mod 10))
    (String (digit_char (n / 100 mod 10)) (pad2 n)).

(** [dt.isoformat()]: the text [YYYY-MM-DD] of a date *)
Definition isoformat (dt : date) : string :=
  (pad4 (year dt) ++ "-" ++ pad2 (month dt) ++ "-" ++ pad2 (day dt))%string.

(** the text of a list of decimal digits *)
Fixpoint digits_str (l : list Z) : string :=
  match l with
  | [] => EmptyString
  | k :: l' => String (digit_char k) (digits_str l')
  end.

Definition is_digit (k : Z) : Prop := (0 <= k < 10)%Z.

(** the date a genesis text denotes: the first three statements in the [try]
    of [years_since] *)
Definition genesis_day (genesis_str : string) : result date :=
  let parts := split "-" genesis_str in
  p0 <- index parts 0 ;;
  y <- py_int p0 ;;
  p1 <- index parts 1 ;;
  m <- py_int p1 ;;
  p2 <- index parts 2 ;;
  d <- py_int p2 ;;
  date_new y m d.

Close Scope Z_scope.

(** ** The float operations the program uses *)

Class PyFloat (F : Type) : Type := {
  (** the float of an integer ([float(n)], or an integer literal meeting a
      float) *)
  of_Z : Z -> F;
  (** the decimal literal [n/d], [d] a power of ten: [0.35] is [dec 35 100] *)
  dec : Z -> positive -> F;
  fadd : F -> F -> F;
  fsub : F -> F -> F;
  fmul : F -> F -> F;
  (** the quotient by a divisor that is not zero; Python raises on zero before
      dividing, see [truediv] *)
  fdiv : F -> F -> F;
  fneg : F -> F;
  feq : F -> F -> bool;
  flt : F -> F -> bool;
  fle : F -> F -> bool;
  fisnan : F -> bool;
  (** [float(s)] on a text: [None] where Python raises ValueError *)
  float_of_text : string -> option F
}.

(** ** Python values and the operators applied to them *)

Section Python.

Context {F : Type} {PF : PyFloat F}.

Inductive value : Type :=
| VNone
| VNum (x : F)
| VStr (s : string).

(** [float(x)] *)
Definition py_float (x : value) : result F :=
  match x with
  | VNone => Raise TypeError
  | VNum v => Ok v
  | VStr s => match float_of_text s with
              | Some v => Ok v
              | None => Raise ValueError
              end
  end.

Definition is_text (x : value) : bool :=
  match x with
  | VStr _ => true
  | _ => false
  end.

(** [pd.isna(x)] on a scalar *)
Definition isna (x : value) : bool :=
  match x with
  | VNone => true
  | VNum v => fisnan v
  | VStr _ => false
  end.

(** truth value: [None], zero and the empty text are false; NaN is true *)
Definition truthy (x : value) : bool :=
  match x with
  | VNone => false
  | VNum v => negb (feq v (of_Z 0))
  | VStr s => negb (String.eqb s "")
  end.

(** [x or y] *)
Definition py_or (x y : value) : value := if truthy x then x else y.

(** [x == 0] *)
Definition eq_zero (x : value) : bool :=
  match x with
  | VNum v => feq v (of_Z 0)
  | _ => false
  end.

(** [x <= 0] *)
Definition le_zero (x : value) : result bool :=
  match x with
  | VNum v => Ok (fle v (of_Z 0))
  | _ => Raise TypeError
  end.

(** [n - x], [n] a number *)
Definition rsub (n : F) (x : value) : result F :=
  match x with
  | VNum v => Ok (fsub n v)
  | _ => Raise TypeError
  end.

(** [-x] *)
Definition py_neg (x : value) : result F :=
  match x with
  | VNum v => Ok (fneg v)
  | _ => Raise TypeError
  end.

(** [a / b] on floats *)
Definition truediv (a b : F) : result F :=
  if feq b (of_Z 0) then Raise ZeroDivisionError else Ok (fdiv a b).

(** [x / y] on values *)
Definition py_truediv (x y : value) : result F :=
  match x, y with
  | VNum a, VNum b => truediv a b
  | _, _ => Raise TypeError
  end.

(** [min(a, b)] and [max(a, b)]: the first argument unless the second is
    strictly smaller (larger) *)
Definition py_min (a b : F) : F := if flt b a then b else a.
Definition py_max (a b : F) : F := if flt a b then b else a.

(** [np.clip(v, lo, hi)]; a NaN passes through *)
Definition clip (v lo hi : F) : F :=
  if flt v lo then lo else if flt hi v then hi else v.

(** ** Helpers *)

(** [scale(x, xmin, xmax)] *)
Definition scale (x : value) (xmin xmax : F) : result F :=
  match py_float x with
  | Raise e => if type_or_value e then Ok (dec 5 10) else Raise e
  | Ok v =>
      if fisnan v || feq xmax xmin then Ok (dec 5 10)
      else
        v' <- truediv (fsub v xmin) (fsub xmax xmin) ;;
        Ok (clip v' (of_Z 0) (of_Z 1))
  end.

(** [years_since(genesis_str)]; [today] is the value of [date.today()] *)
Definition years_since (today : date) (genesis_str : value) : F :=
  match genesis_str with
  | VStr s =>
      if negb (truthy genesis_str) then of_Z 0
      else
        try_or
          (g <- genesis_day s ;;
           q <- truediv (of_Z (sub_days today g)) (dec 36525 100) ;;
           Ok (py_max q (of_Z 0)))
          (of_Z 0)
  | _ => of_Z 0
  end.

(** ** Rows

    One row of the data frame.  [symbol] and [name] are texts (the identity
    fields the specification requires); a cell that is absent or null is
    [VNone], and a null in a numeric column of the frame is [VNum] of a NaN. *)

Record row : Type := {
  symbol : string;
  name : string;
  market_cap_rank : value;
  market_cap : value;
  total_volume : value;
  ath_change_percentage : value;
  circulating_supply : value;
  max_supply : value;
  fully_diluted_valuation : value;
  price_change_percentage_7d_in_currency : value;
  price_change_percentage_30d_in_currency : value;
  developer_score : value;
  community_score : value;
  sentiment_votes_up_percentage : value;
  genesis_date : value
}.

(** no text in the cells that the scores subtract, negate, divide or compare
    without a [try] *)
Definition text_free (r : row) : bool :=
  negb (is_text (market_cap_rank r)) && negb (is_text (market_cap r))
  && negb (is_text (total_volume r)) && negb (is_text (ath_change_percentage r))
  && negb (is_text (fully_diluted_valuation r)).

Definition stable_syms : list string :=
  ["usdt"; "usdc"; "busd"; "dai"; "tusd"; "usdd"; "usde";
   "gusd"; "usdp"; "fdusd"; "eusd"; "eurt"; "euroc"; "susd";
   "lusd"; "frax"; "pai"; "usdx"].

Definition wrapped_syms : list string :=
  ["wbtc"; "weth"; "wsteth"; "wsol"; "wavax"].

(** [is_stable_or_wrapped(row)] *)
Definition is_stable_or_wrapped (r : row) : bool :=
  let sym := lower (symbol r) in
  let name := lower (name r) in
  if mem sym stable_syms then true
  else if contains "wrapped" name then true
  else if contains "staked ether" name || contains "staked eth" name then true
  else if mem sym wrapped_syms then true
  else false.

(** ** Scores *)

(** the rank component of [score_market] (its [rank_score]) *)
Definition rank_score (r : row) : result F :=
  let rank := market_cap_rank r in
  let rank := if isna rank then VNum (of_Z 200) else rank in
  d <- rsub (of_Z 200) rank ;;
  scale (VNum d) (of_Z 0) (of_Z 199).

(** the liquidity component of [score_market] (its [liq_score]) *)
Definition liq_score (r : row) : result F :=
  let mc := market_cap r in
  let vol := total_volume r in
  liq_ratio <-
    (if isna mc || eq_zero mc then Ok (of_Z 0)
     else py_truediv (py_or vol (VNum (of_Z 0))) mc) ;;
  scale (VNum liq_ratio) (dec 1 100) (dec 30 100).

(** the all-time-high component of [score_market] (its [ath_score]) *)
Definition ath_score (r : row) : result F :=
  let ath_chg := ath_change_percentage r in
  if isna ath_chg then Ok (dec 5 10)
  else
    dd <- py_neg ath_chg ;;
    if flt dd (of_Z 10) then Ok (dec 2 10)
    else if flt (of_Z 80) dd then Ok (dec 3 10)
    else
      q <- truediv (fmul (dec 8 10) (fsub dd (of_Z 10))) (of_Z 70) ;;
      Ok (fadd (dec 2 10) q).

(** [score_market(row)] *)
Definition score_market (r : row) : result F :=
  rank_score <- rank_score r ;;
  liq_score <- liq_score r ;;
  ath_score <- ath_score r ;;
  let market_score_0_1 :=
    fadd (fadd (fmul (dec 4 10) rank_score) (fmul (dec 3 10) liq_score))
         (fmul (dec 3 10) ath_score) in
  Ok (fmul (of_Z 25) market_score_0_1).

(** the circulation component of [score_tokenomics] (its [circ_score]) *)
Definition circ_score (r : row) : result F :=
  let circ := circulating_supply r in
  let max_supply := max_supply r in
  if isna max_supply || negb (truthy max_supply) || eq_zero max_supply
  then Ok (dec 4 10)
  else
    ratio <-
      try_except
        (a <- py_float circ ;; b <- py_float max_supply ;; truediv a b)
        type_value_or_zerodiv
        (Ok (dec 5 10)) ;;
    if flt ratio (dec 3 10) then Ok (dec 2 10)
    else if flt (dec 95 100) ratio then Ok (dec 7 10)
    else
      q <- truediv (fmul (dec 8 10) (fsub ratio (dec 3 10)))
                   (fsub (dec 95 100) (dec 3 10)) ;;
      Ok (fadd (dec 2 10) q).

(** the dilution component of [score_tokenomics] (its [dilution_score]) *)
Definition dilution_score (r : row) : result F :=
  let mc := market_cap r in
  let fdv := fully_diluted_valuation r in
  nonpos <-
    (if isna mc || eq_zero mc || isna fdv || negb (truthy fdv) then Ok true
     else le_zero fdv) ;;
  if (nonpos : bool) then Ok (dec 5 10)
  else
    d_ratio <-
      try_except
        (a <- py_float mc ;; b <- py_float fdv ;; truediv a b)
        type_value_or_zerodiv
        (Ok (dec 5 10)) ;;
    if fle (dec 7 10) d_ratio then Ok (of_Z 1)
    else if fle d_ratio (dec 3 10) then Ok (dec 3 10)
    else
      q <- truediv (fmul (dec 7 10) (fsub d_ratio (dec 3 10)))
                   (fsub (dec 7 10) (dec 3 10)) ;;
      Ok (fadd (dec 3 10) q).

(** [score_tokenomics(row)] *)
Definition score_tokenomics (r : row) : result F :=
  circ_score <- circ_score r ;;
  dilution_score <- dilution_score r ;;
  let inflation_score := dec 6 10 in
  let tokenomics_0_1 :=
    fadd (fadd (fmul (dec 4 10) circ_score) (fmul (dec 4 10) dilution_score))
         (fmul (dec 2 10) inflation_score) in
  Ok (fmul (of_Z 25) tokenomics_0_1).

(** [score_momentum_narr(row)] *)
Definition score_momentum_narr (r : row) : result F :=
  let p30 := price_change_percentage_30d_in_currency r in
  let p7 := price_change_percentage_7d_in_currency r in
  mom30 <- scale p30 (of_Z (-20)) (of_Z 60) ;;
  mom7 <- scale p7 (of_Z (-15)) (of_Z 40) ;;
  let narrative_score := dec 6 10 in
  let momentum_0_1 :=
    fadd (fadd (fmul (dec 4 10) mom30) (fmul (dec 3 10) mom7))
         (fmul (dec 3 10) narrative_score) in
  Ok (fmul (of_Z 20) momentum_0_1).

(** [score_whales_deriv(_row)] *)
Definition score_whales_deriv (_row : row) : F := of_Z 10.

(** [score_personal_fundamental(row)] *)
Definition score_personal_fundamental (today : date) (r : row) : result F :=
  let dev := developer_score r in
  let comm := community_score r in
  let sent := sentiment_votes_up_percentage r in
  let genesis := genesis_date r in
  dev_norm <- scale dev (of_Z 0) (of_Z 100) ;;
  comm_norm <- scale comm (of_Z 0) (of_Z 100) ;;
  sent_norm <- scale sent (of_Z 50) (of_Z 90) ;;
  let years := years_since today genesis in
  let years_capped := py_min years (of_Z 10) in
  age_norm <- scale (VNum years_capped) (of_Z 0) (of_Z 10) ;;
  let personal_0_1 :=
    fadd (fadd (fadd (fmul (dec 35 100) dev_norm) (fmul (dec 25 100) comm_norm))
               (fmul (dec 25 100) sent_norm))
         (fmul (dec 15 100) age_norm) in
  Ok (fmul (of_Z 10) personal_0_1).

(** ** The scoring step of [load_data]

    [df[c] = df.apply(f, axis=1)] computes one column at a time, over every
    row; [holder_score_100] is then the sum of the five columns, row by
    row. *)

Record scored : Type := {
  asset : row;
  col_score_market : F;
  col_score_tokenomics : F;
  col_score_momentum_narr : F;
  col_score_whales_deriv : F;
  col_score_personal : F;
  col_holder_score_100 : F
}.

(** the sum of two columns *)
Fixpoint col_add (a b : list F) : list F :=
  match a, b with
  | x :: a', y :: b' => fadd x y :: col_add a' b'
  | _, _ => []
  end.

(** the rows of the frame, once the columns are set *)
Fixpoint frame (df : list row) (sm st smn swd sp hs : list F) : list scored :=
  match df, sm, st, smn, swd, sp, hs with
  | r :: df', a :: sm', b :: st', c :: smn', d :: swd', e :: sp', h :: hs' =>
      {| asset := r;
         col_score_market := a;
         col_score_tokenomics := b;
         col_score_momentum_narr := c;
         col_score_whales_deriv := d;
         col_score_personal := e;
         col_holder_score_100 := h |} :: frame df' sm' st' smn' swd' sp' hs'
  | _, _, _, _, _, _, _ => []
  end.

(** step 5 of [load_data] *)
Definition compute_scores (today : date) (df : list row) : result (list scored) :=
  sm <- mapM score_market df ;;
  st <- mapM score_tokenomics df ;;
  smn <- mapM score_momentum_narr df ;;
  let swd := map score_whales_deriv df in
  sp <- mapM (score_personal_fundamental today) df ;;
  let hs := col_add (col_add (col_add (col_add sm st) smn) swd) sp in
  Ok (frame df sm st smn swd sp hs).

(** what one row of the scored frame is, given the row it comes from *)
Definition scored_from (today : date) (r : row) (s : scored) : Prop :=
  asset s = r /\
  score_market r = Ok (col_score_market s) /\
  score_tokenomics r = Ok (col_score_tokenomics s) /\
  score_momentum_narr r = Ok (col_score_momentum_narr s) /\
  score_whales_deriv r = col_score_whales_deriv s /\
  score_personal_fundamental today r = Ok (col_score_personal s) /\
  col_holder_score_100 s =
    fadd (fadd (fadd (fadd (col_score_market s) (col_score_tokenomics s))
                     (col_score_momentum_narr s))
               (col_score_whales_deriv s))
         (col_score_personal s).

End Python.

Arguments value F : clear implicits.
Arguments row F : clear implicits.
Arguments scored F : clear implicits.

(** ** Exact arithmetic

    A rational number or NaN.  Results are kept in lowest terms, so that equal
    numbers are equal terms. *)

Inductive xnum : Type :=
| XNaN
| XFin (q : Q).

Definition xop2 (f : Q -> Q -> Q) (a b : xnum) : xnum :=
  match a, b with
  | XFin p, XFin q => XFin (Qred (f p q))
  | _, _ => XNaN
  end.

Definition xdiv (a b : xnum) : xnum :=
  match a, b with
  | XFin p, XFin q => if Qeq_bool q 0 then XNaN else XFin (Qred (p / q))
  | _, _ => XNaN
  end.

Definition xneg (a : xnum) : xnum :=
  match a with
  | XFin p => XFin (Qred (- p))
  | XNaN => XNaN
  end.

(** a comparison with a NaN is false *)
Definition xcmp (test : comparison -> bool) (a b : xnum) : bool :=
  match a, b with
  | XFin p, XFin q => test (p ?= q)%Q
  | _, _ => false
  end.

Definition is_Eq (c : comparison) : bool :=
  match c with Eq => true | _ => false end.

Definition is_Lt (c : comparison) : bool :=
  match c with Lt => true | _ => false end.

Definition is_Le (c : comparison) : bool :=
  match c with Gt => false | _ => true end.

Definition xisnan (a : xnum) : bool :=
  match a with XNaN => true | XFin _ => false end.

(** [parse] is [float()] on texts *)
Definition xnum_ops (parse : string -> option xnum) : PyFloat xnum := {|
  of_Z := fun n => XFin (inject_Z n);
  dec := fun n d => XFin (Qred (n # d));
  fadd := xop2 Qplus;
  fsub := xop2 Qminus;
  fmul := xop2 Qmult;
  fdiv := xdiv;
  fneg := xneg;
  feq := xcmp is_Eq;
  flt := xcmp is_Lt;
  fle := xcmp is_Le;
  fisnan := xisnan;
  float_of_text := parse
|}.

(** ** Binary64 arithmetic *)

(** the float nearest to an integer *)
Definition b64_of_Z (n : Z) : float :=
  SF2Prim (binary_normalize prec emax n 0 false).

(** [parse] is [float()] on texts *)
Definition float_ops (parse : string -> option float) : PyFloat float := {|
  of_Z := b64_of_Z;
  dec := fun n d => PrimFloat.div (b64_of_Z n) (b64_of_Z (Zpos d));
  fadd := PrimFloat.add;
  fsub := PrimFloat.sub;
  fmul := PrimFloat.mul;
  fdiv := PrimFloat.div;
  fneg := PrimFloat.opp;
  feq := PrimFloat.eqb;
  flt := PrimFloat.ltb;
  fle := PrimFloat.leb;
  fisnan := PrimFloat.is_nan;
  float_of_text := parse
|}.

(** no text is a number: a [float()] that rejects every text *)
Definition no_text {F : Type} (s : string) : option F := None.

(** ** Sample rows *)

Section Samples.

Context {F : Type} {PF : PyFloat F}.

(** a row with every optional cell null *)
Definition null_row (sym nm : string) : row F := {|
  symbol := sym;
  name := nm;
  market_cap_rank := VNone;
  market_cap := VNone;
  total_volume := VNone;
  ath_change_percentage := VNone;
  circulating_supply := VNone;
  max_supply := VNone;
  fully_diluted_valuation := VNone;
  price_change_percentage_7d_in_currency := VNone;
  price_change_percentage_30d_in_currency := VNone;
  developer_score := VNone;
  community_score := VNone;
  sentiment_votes_up_percentage := VNone;
  genesis_date := VNone
|}.

(** the record of the specification's end-to-end example *)
Definition btc_row : row F := {|
  symbol := "btc";
  name := "Bitcoin";
  market_cap_rank := VNum (of_Z 1);
  market_cap := VNum (of_Z 1000000000000);
  total_volume := VNum (of_Z 30000000000);
  ath_change_percentage := VNum (of_Z (-15));
  circulating_supply := VNum (of_Z 19000000);
  max_supply := VNum (of_Z 21000000);
  fully_diluted_valuation := VNum (of_Z 1050000000000);
  price_change_percentage_7d_in_currency := VNum (of_Z 5);
  price_change_percentage_30d_in_currency := VNum (of_Z 10);
  developer_score := VNum (of_Z 90);
  community_score := VNum (of_Z 80);
  sentiment_votes_up_percentage := VNum (of_Z 85);
  genesis_date := VStr "2009-01-03"
|}.

(** [r] with other supply cells *)
Definition with_supply (r : row F) (circ ms : value F) : row F := {|
  symbol := symbol r;
  name := name r;
  market_cap_rank := market_cap_rank r;
  market_cap := market_cap r;
  total_volume := total_volume r;
  ath_change_percentage := ath_change_percentage r;
  circulating_supply := circ;
  max_supply := ms;
  fully_diluted_valuation := fully_diluted_valuation r;
  price_change_percentage_7d_in_currency := price_change_percentage_7d_in_currency r;
  price_change_percentage_30d_in_currency := price_change_percentage_30d_in_currency r;
  developer_score := developer_score r;
  community_score := community_score r;
  sentiment_votes_up_percentage := sentiment_votes_up_percentage r;
  genesis_date := genesis_date r
|}.

(** [r] with another market cap *)
Definition with_market_cap (r : row F) (mc : value F) : row F := {|
  symbol := symbol r;
  name := name r;
  market_cap_rank := market_cap_rank r;
  market_cap := mc;
  total_volume := total_volume r;
  ath_change_percentage := ath_change_percentage r;
  circulating_supply := circulating_supply r;
  max_supply := max_supply r;
  fully_diluted_valuation := fully_diluted_valuation r;
  price_change_percentage_7d_in_currency := price_change_percentage_7d_in_currency r;
  price_change_percentage_30d_in_currency := price_change_percentage_30d_in_currency r;
  developer_score := developer_score r;
  community_score := community_score r;
  sentiment_votes_up_percentage := sentiment_votes_up_percentage r;
  genesis_date := genesis_date r
|}.


End Samples.

Definition d20261104 : date := {| year := 2026; month := 11; day := 4 |}.


(** the exact and the binary64 reading, with a [float()] that rejects every
    text *)
Definition X : PyFloat xnum := xnum_ops no_text.

Definition B : PyFloat float := float_ops no_text.

#[global] Existing Instance X | 10.
#[global] Existing Instance B | 10.

(** ** The stated contracts, over the rationals *)

(** [clip(v, lo, hi)] *)
Definition Qclip (v lo hi : Q) : Q :=
  match (v ?= lo)%Q with
  | Lt => lo
  | _ => match (hi ?= v)%Q with
         | Lt => hi
         | _ => v
         end
  end.

(** the number a cell holds: none for a missing cell, for a NaN and for a
    text that [float()] rejects or reads as a NaN *)
Definition number_of (parse : string -> option xnum) (x : value xnum) : option Q :=
  match x with
  | VNone => None
  | VNum XNaN => None
  | VNum (XFin q) => Some q
  | VStr s => match parse s with
              | Some (XFin q) => Some q
              | _ => None
              end
  end.

(** the contract of [scale]: 0.5 when [x] is missing or not a number or the
    bounds are equal, else [clip((x - xmin)/(xmax - xmin), 0, 1)] *)
Definition scale_spec (parse : string -> option xnum) (x : value xnum)
    (xmin xmax : Q) : Q :=
  match number_of parse x with
  | None => 1 # 2
  | Some q =>
      if Qeq_bool xmin xmax then 1 # 2
      else Qclip ((q - xmin) / (xmax - xmin)) 0 1
  end.

(** [float(x)] is not a NaN *)
Definition nan_free (parse : string -> option xnum) (x : value xnum) : bool :=
  match py_float (PF := xnum_ops parse) x with
  | Ok XNaN => false
  | _ => true
  end.

(** the dilution component as the specification words it, with the guard on a
    zero market cap that the code has: the piecewise formula on
    [market_cap / fully_diluted_valuation] when both are numbers,
    [market_cap] is not zero and [fdv > 0], else the neutral 0.5 *)
Definition dilution_spec (mc fdv : value xnum) : Q :=
  match mc, fdv with
  | VNum (XFin m), VNum (XFin f) =>
      if Qeq_bool m 0 || Qle_bool f 0 then 1 # 2
      else
        let d_ratio := (m / f)%Q in
        if Qle_bool (7 # 10) d_ratio then 1
        else if Qle_bool d_ratio (3 # 10) then 3 # 10
        else ((3 # 10) + (7 # 10) * (d_ratio - (3 # 10)) / (4 # 10))%Q
  | _, _ => 1 # 2
  end.


(** a cell that is missing (null or NaN) or zero *)
Definition missing_or_zero (x : value xnum) : bool :=
  match x with
  | VNone => true
  | VNum XNaN => true
  | VNum (XFin z) => Qeq_bool z 0
  | VStr _ => false
  end.

(** ** The rest of the pipeline *)

Section Pipeline.

Context {F : Type} {PF : PyFloat F}.

(** one dict of [rows] in [fetch_fundamentals_for_ids] *)
Record fundamentals : Type := {
  f_id : string;
  f_developer_score : value F;
  f_community_score : value F;
  f_coingecko_score : value F;
  f_sentiment_votes_up_percentage : value F;
  f_genesis_date : value F
}.

(** the dict appended in the [except] branch *)
Definition null_fundamentals (cid : string) : fundamentals := {|
  f_id := cid;
  f_developer_score := VNone;
  f_community_score := VNone;
  f_coingecko_score := VNone;
  f_sentiment_votes_up_percentage := VNone;
  f_genesis_date := VNone
|}.

(** [fetch_fundamentals_for_ids(ids)], up to its list [rows].  [get_coin cid]
    is the request with [raise_for_status] and [resp.json()]: it raises, or
    gives the [j.get] of the decoded object (null for an absent key). *)
Definition fetch_fundamentals_for_ids
    (get_coin : string -> result (string -> value F)) (ids : list string)
    : list fundamentals :=
  fold_left
    (fun rows cid =>
       rows ++
       [try_or
          (j <- get_coin cid ;;
           Ok {| f_id := cid;
                 f_developer_score := j "developer_score";
                 f_community_score := j "community_score";
                 f_coingecko_score := j "coingecko_score";
                 f_sentiment_votes_up_percentage := j "sentiment_votes_up_percentage";
                 f_genesis_date := j "genesis_date" |})
          (null_fundamentals cid)])
    ids [].

(** what [fetch_fundamentals_for_ids] is to append for one id *)
Definition fetched (get_coin : string -> result (string -> value F))
    (cid : string) (f : fundamentals) : Prop :=
  f_id f = cid /\
  (forall e, get_coin cid = Raise e -> f = null_fundamentals cid) /\
  (forall j, get_coin cid = Ok j ->
     f_developer_score f = j "developer_score" /\
     f_community_score f = j "community_score" /\
     f_coingecko_score f = j "coingecko_score" /\
     f_sentiment_votes_up_percentage f = j "sentiment_votes_up_percentage" /\
     f_genesis_date f = j "genesis_date").

(** step 3 of [load_data]: the rows that are not stable or wrapped, ordered
    by [sort_values("market_cap_rank")], the first 40 of them *)
Definition select_markets
    (sort_values : list (row F) -> result (list (row F)))
    (markets_all : list (row F)) : result (list (row F)) :=
  let markets := filter (fun r => negb (is_stable_or_wrapped r)) markets_all in
  sorted <- sort_values markets ;;
  Ok (firstn 40 sorted).

(** [df[df["holder_score_100"] >= min_holder]] of the dashboard *)
Definition filter_by_score (min_holder : Z) (df : list (scored F))
    : list (scored F) :=
  filter (fun s => fle (of_Z min_holder) (col_holder_score_100 s)) df.

(** the divisors of the scores are not zero: the differences of the bounds
    given to [scale] and the constants of the piecewise formulas *)
Definition divisors_nonzero : Prop :=
  feq (fsub (of_Z 199) (of_Z 0)) (of_Z 0) = false /\
  feq (fsub (dec 30 100) (dec 1 100)) (of_Z 0) = false /\
  feq (fsub (of_Z 60) (of_Z (-20))) (of_Z 0) = false /\
  feq (fsub (of_Z 40) (of_Z (-15))) (of_Z 0) = false /\
  feq (fsub (of_Z 100) (of_Z 0)) (of_Z 0) = false /\
  feq (fsub (of_Z 90) (of_Z 50)) (of_Z 0) = false /\
  feq (fsub (of_Z 10) (of_Z 0)) (of_Z 0) = false /\
  feq (of_Z 70) (of_Z 0) = false /\
  feq (fsub (dec 95 100) (dec 3 10)) (of_Z 0) = false /\
  feq (fsub (dec 7 10) (dec 3 10)) (of_Z 0) = false.

End Pipeline.

(** the rank a row is ordered by: none for a null or a NaN *)
Definition rank_key (r : row xnum) : option Q :=
  match market_cap_rank r with
  | VNum (XFin q) => Some q
  | _ => None
  end.

(** ascending, rows without rank last *)
Definition rank_leb (r1 r2 : row xnum) : bool :=
  match rank_key r1, rank_key r2 with
  | Some p, Some q => Qle_bool p q
  | Some _, None => true
  | None, Some _ => false
  | None, None => true
  end.

(** insertion by rank, a sort to run [select_markets] with *)
Fixpoint insert_by_rank (r : row xnum) (l : list (row xnum)) : list (row xnum) :=
  match l with
  | [] => [r]
  | x :: l' => if rank_leb r x then r :: l else x :: insert_by_rank r l'
  end.

Definition sort_by_rank (l : list (row xnum)) : list (row xnum) :=
  fold_right insert_by_rank [] l.

(** what the ranges of the sub-scores leave for a scored row: the tokenomics
    score and the holder score are NaN together, and otherwise every score
    lies in the range its formula can reach *)
Definition in_reach (s : scored xnum) : Prop :=
  (exists a, col_score_market s = XFin a /\ 3 # 2 <= a <= 25) /\
  (exists c, col_score_momentum_narr s = XFin c /\ 18 # 5 <= c <= 88 # 5) /\
  col_score_whales_deriv s = XFin 10 /\
  (exists e, col_score_personal s = XFin e /\ 0 <= e <= 10) /\
  ((col_score_tokenomics s = XNaN /\ col_holder_score_100 s = XNaN) \/
   (exists b h, col_score_tokenomics s = XFin b /\ 8 <= b <= 23 /\
                col_holder_score_100 s = XFin h /\ 231 # 10 <= h <= 428 # 5)).

(** a row whose fundamentals are the NaN of a numeric column *)
Definition nan_fundamentals_row : row xnum := {|
  symbol := "eth";
  name := "Ethereum";
  market_cap_rank := VNum (XFin 2);
  market_cap := VNum (XFin 400000000000);
  total_volume := VNum XNaN;
  ath_change_percentage := VNum (XFin (-30));
  circulating_supply := VNum (XFin 120000000);
  max_supply := VNone;
  fully_diluted_valuation := VNum (XFin 400000000000);
  price_change_percentage_7d_in_currency := VNum (XFin 5);
  price_change_percentage_30d_in_currency := VNum (XFin 10);
  developer_score := VNum XNaN;
  community_score := VNum XNaN;
  sentiment_votes_up_percentage := VNum XNaN;
  genesis_date := VNum XNaN
|}.

(** a row with a text for its rank *)
Definition text_rank_row : row float := {|
  symbol := "xyz";
  name := "Xyz";
  market_cap_rank := VStr "n/a";
  market_cap := VNum 1000000%float;
  total_volume := VNum 1000%float;
  ath_change_percentage := VNone;
  circulating_supply := VNone;
  max_supply := VNone;
  fully_diluted_valuation := VNone;
  price_change_percentage_7d_in_currency := VNone;
  price_change_percentage_30d_in_currency := VNone;
  developer_score := VNone;
  community_score := VNone;
  sentiment_votes_up_percentage := VNone;
  genesis_date := VNone
|}.

(** * Properties *)

(** ** The scoring step *)

Section Aggregator.

Context {F : Type} {PF : PyFloat F}.

Lemma mapM_Forall2 (A B : Type) (f : A -> result B) (l : list A) (out : list B) :
  mapM f l = Ok out -> Forall2 (fun a b => f a = Ok b) l out.
Proof.
  revert out; induction l as [|a l IH]; simpl; intros out H.
  - injection H as <-. constructor.
  - destruct (f a) as [b|e] eqn:Ea; simpl in H; [|discriminate].
    destruct (mapM f l) as [bs|e] eqn:El; simpl in H; [|discriminate].
    injection H as <-. constructor; auto.
Qed.

Lemma Forall2_mapM (A B : Type) (f : A -> result B) (l : list A) (out : list B) :
  Forall2 (fun a b => f a = Ok b) l out -> mapM f l = Ok out.
Proof.
  induction 1 as [|a b l out Hab _ IH]; simpl; [reflexivity|].
  rewrite Hab; simpl. rewrite IH; reflexivity.
Qed.

Lemma frame_scored_from (today : date) (df : list (row F)) :
  forall sm st smn sp,
    Forall2 (fun r x => score_market r = Ok x) df sm ->
    Forall2 (fun r x => score_tokenomics r = Ok x) df st ->
    Forall2 (fun r x => score_momentum_narr r = Ok x) df smn ->
    Forall2 (fun r x => score_personal_fundamental today r = Ok x) df sp ->
    Forall2 (scored_from today) df
      (frame df sm st smn (map score_whales_deriv df) sp
         (col_add (col_add (col_add (col_add sm st) smn)
                           (map score_whales_deriv df)) sp)).
Proof.
  induction df as [|r df IH]; intros sm st smn sp H1 H2 H3 H4.
  - constructor.
  - inversion H1 as [|? a ? sm' Ha H1']; subst.
    inversion H2 as [|? b ? st' Hb H2']; subst.
    inversion H3 as [|? c ? smn' Hc H3']; subst.
    inversion H4 as [|? e ? sp' He H4']; subst.
    simpl. constructor.
    + unfold scored_from; simpl. repeat split; assumption.
    + apply IH; assumption.
Qed.

(** When the scoring step of [load_data] returns, the frame has one
    scored row per input row, in order; its five score columns hold the
    sub-scores of that row, and its [holder_score_100] is the float sum
    [score_market + score_tokenomics + score_momentum_narr +
    score_whales_deriv + score_personal] of those five columns, added left
    to right: there is no other computation of it. *)
Lemma compute_scores_rows (today : date) (df : list (row F)) (out : list (scored F)) :
  compute_scores today df = Ok out ->
  Forall2 (scored_from today) df out.
Proof.
  unfold compute_scores. intros H.
  destruct (mapM score_market df) as [sm|] eqn:E1; simpl in H; [|discriminate].
  destruct (mapM score_tokenomics df) as [st|] eqn:E2; simpl in H; [|discriminate].
  destruct (mapM score_momentum_narr df) as [smn|] eqn:E3; simpl in H; [|discriminate].
  destruct (mapM (score_personal_fundamental today) df) as [sp|] eqn:E4;
    simpl in H; [|discriminate].
  injection H as <-.
  apply frame_scored_from; apply mapM_Forall2; assumption.
Qed.

End Aggregator.

(** ** The normaliser, in exact arithmetic *)

Ltac xsimpl :=
  cbn [xnum_ops of_Z dec fadd fsub fmul fdiv fneg feq flt fle fisnan float_of_text
       xop2 xdiv xneg xcmp xisnan bind try_except try_or type_or_value
       type_value_or_zerodiv py_float isna truthy py_or eq_zero le_zero rsub
       py_neg truediv py_truediv inject_Z orb andb negb] in *.

Section ExactScale.

Local Open Scope Q_scope.

Variable parse : string -> option xnum.

Lemma Qclip_compat (v w lo hi : Q) : v == w -> Qclip v lo hi == Qclip w lo hi.
Proof.
  intros E.
  assert (C1 : (v ?= lo) = (w ?= lo)) by (rewrite E; reflexivity).
  assert (C2 : (hi ?= v) = (hi ?= w)) by (rewrite E; reflexivity).
  unfold Qclip. rewrite C1, C2.
  destruct (w ?= lo); try reflexivity; destruct (hi ?= w); try reflexivity; exact E.
Qed.

Lemma Qclip_bounds (v lo hi : Q) : lo <= hi -> lo <= Qclip v lo hi <= hi.
Proof.
  intros L. unfold Qclip.
  destruct (v ?= lo) eqn:E1.
  - apply Qeq_alt in E1. destruct (hi ?= v) eqn:E2.
    + lra.
    + apply Qlt_alt in E2. lra.
    + lra.
  - lra.
  - apply Qgt_alt in E1. destruct (hi ?= v) eqn:E2.
    + apply Qeq_alt in E2. lra.
    + lra.
    + apply Qgt_alt in E2. lra.
Qed.

Lemma Qclip_red (v : Q) : Qclip (Qred v) 0 1 = Qred (Qclip v 0 1).
Proof.
  assert (C1 : (Qred v ?= 0) = (v ?= 0)) by (rewrite Qred_correct; reflexivity).
  assert (C2 : (1 ?= Qred v) = (1 ?= v)) by (rewrite Qred_correct; reflexivity).
  unfold Qclip. rewrite C1, C2.
  destruct (v ?= 0); try reflexivity; destruct (1 ?= v); reflexivity.
Qed.

Lemma clip_exact (v : Q) :
  clip (PF := xnum_ops parse) (XFin v) (XFin 0) (XFin 1) = XFin (Qclip v 0 1).
Proof.
  unfold clip, Qclip; simpl.
  destruct (v ?= 0); simpl; try reflexivity;
    destruct (1 ?= v); reflexivity.
Qed.

Lemma is_Eq_compare (p q : Q) : is_Eq (p ?= q) = Qeq_bool p q.
Proof.
  destruct (Qeq_bool p q) eqn:B.
  - apply Qeq_bool_iff, Qeq_alt in B. rewrite B. reflexivity.
  - destruct (p ?= q) eqn:E; try reflexivity.
    apply Qeq_alt, Qeq_bool_iff in E. congruence.
Qed.

Lemma truediv_exact (p q : Q) :
  ~ q == 0 ->
  truediv (PF := xnum_ops parse) (XFin p) (XFin q) = Ok (XFin (Qred (p / q))).
Proof.
  intros N. unfold truediv; cbn [xnum_ops of_Z feq fdiv xcmp xdiv].
  change (inject_Z 0) with 0. rewrite is_Eq_compare.
  destruct (Qeq_bool q 0) eqn:B; [|reflexivity].
  apply Qeq_bool_iff in B. contradiction.
Qed.

Lemma scale_fin (q a b : Q) :
  (if is_Eq (b ?= a)
   then Ok (XFin (Qred (5 # 10)))
   else
     v' <- truediv (PF := xnum_ops parse) (XFin (Qred (q - a))) (XFin (Qred (b - a))) ;;
     Ok (clip (PF := xnum_ops parse) v' (XFin 0) (XFin 1))) =
  Ok (XFin (Qred (if Qeq_bool a b then 1 # 2 else Qclip ((q - a) / (b - a)) 0 1))).
Proof.
  rewrite is_Eq_compare.
  destruct (Qeq_bool b a) eqn:B.
  - apply Qeq_bool_iff in B.
    assert (B' : Qeq_bool a b = true) by (apply Qeq_bool_iff; symmetry; exact B).
    rewrite B'. reflexivity.
  - assert (B' : Qeq_bool a b = false).
    { destruct (Qeq_bool a b) eqn:B'; [|reflexivity].
      apply Qeq_bool_iff in B'. symmetry in B'. apply Qeq_bool_iff in B'. congruence. }
    rewrite B'.
    assert (N : ~ Qred (b - a) == 0).
    { rewrite Qred_correct. intros H.
      assert (E : b == a) by lra. apply Qeq_bool_iff in E. congruence. }
    rewrite (truediv_exact _ N). cbn [bind].
    rewrite clip_exact, Qclip_red. do 2 f_equal.
    apply Qred_complete, Qclip_compat.
    rewrite !Qred_correct. reflexivity.
Qed.

Lemma scale_exact (x : value xnum) (a b : Q) :
  scale (PF := xnum_ops parse) x (XFin a) (XFin b) = Ok (XFin (Qred (scale_spec parse x a b))).
Proof.
  unfold scale, scale_spec, number_of.
  destruct x as [|[|q]|s]; xsimpl; try reflexivity.
  - apply scale_fin.
  - destruct (parse s) as [[|q]|]; xsimpl; try reflexivity.
    apply scale_fin.
Qed.

Lemma scale_spec_range (x : value xnum) (a b : Q) : 0 <= scale_spec parse x a b <= 1.
Proof.
  unfold scale_spec.
  destruct (number_of parse x) as [q|]; [|lra].
  destruct (Qeq_bool a b); [lra|].
  apply Qclip_bounds. lra.
Qed.


End ExactScale.

(** ** The sub-scores, in exact arithmetic *)

Ltac cmp_cases :=
  match goal with
  | |- context [(?p ?= ?q)%Q] =>
      let E := fresh "E" in
      destruct (p ?= q)%Q eqn:E;
      [apply Qeq_alt in E | apply Qlt_alt in E | apply Qgt_alt in E]
  end.

Ltac qred_all := rewrite ?Qred_correct in *.

(** division by a constant, as a product *)
Ltac qdiv :=
  repeat match goal with
  | |- context [(?a / ?c)%Q] =>
      let k := eval vm_compute in (Qred (/ c)) in
      let D := fresh "D" in
      assert (D : (a / c == a * k)%Q) by (field; try discriminate; try lra);
      rewrite D; clear D
  end.

Section ExactScores.

Local Open Scope Q_scope.

Variable parse : string -> option xnum.

Local Hint Extern 0 (PyFloat xnum) => exact (xnum_ops parse) : typeclass_instances.

Lemma scale_unit (x : value xnum) (a b : Q) :
  exists v, scale (PF := xnum_ops parse) x (XFin a) (XFin b) = Ok (XFin v) /\ 0 <= v <= 1.
Proof.
  exists (Qred (scale_spec parse x a b)). split; [apply scale_exact|].
  rewrite Qred_correct. apply scale_spec_range.
Qed.

Ltac use_scale :=
  match goal with
  | |- context [scale (PF := xnum_ops parse) ?x (XFin ?a) (XFin ?b)] =>
      let v := fresh "v" in
      let Ev := fresh "Ev" in
      let Hv := fresh "Hv" in
      destruct (scale_unit x a b) as (v & Ev & Hv); rewrite Ev; clear Ev; cbn [bind]
  end.

Lemma rank_score_range (r : row xnum) :
  is_text (market_cap_rank r) = false ->
  exists v, rank_score (PF := xnum_ops parse) r = Ok (XFin v) /\ 0 <= v <= 1.
Proof.
  unfold rank_score. intros T.
  destruct (market_cap_rank r) as [|[|q]|s]; try discriminate; xsimpl;
    use_scale; eauto.
Qed.

Lemma liq_score_range (r : row xnum) :
  is_text (market_cap r) = false ->
  is_text (total_volume r) = false ->
  exists v, liq_score (PF := xnum_ops parse) r = Ok (XFin v) /\ 0 <= v <= 1.
Proof.
  unfold liq_score. intros T1 T2.
  destruct (market_cap r) as [|[|m]|s]; try discriminate; xsimpl;
    try (use_scale; eauto; fail).
  change (inject_Z 0) with 0. rewrite is_Eq_compare.
  destruct (Qeq_bool m 0) eqn:Z; xsimpl; [use_scale; eauto|].
  assert (N : ~ m == 0) by (intros H; apply Qeq_bool_iff in H; congruence).
  unfold py_or.
  destruct (total_volume r) as [|[|q]|s]; try discriminate; xsimpl.
  - rewrite (truediv_exact parse _ N). cbn [bind]. use_scale; eauto.
  - unfold truediv; xsimpl. change (inject_Z 0) with 0.
    rewrite is_Eq_compare, Z. cbn [bind]. use_scale; eauto.
  - change (inject_Z 0) with 0. rewrite is_Eq_compare.
    destruct (Qeq_bool q 0); xsimpl;
      rewrite (truediv_exact parse _ N); cbn [bind]; use_scale; eauto.
Qed.

Lemma ath_score_range (r : row xnum) :
  is_text (ath_change_percentage r) = false ->
  exists v, ath_score (PF := xnum_ops parse) r = Ok (XFin v) /\ 1 # 5 <= v <= 1.
Proof.
  unfold ath_score. intros T.
  destruct (ath_change_percentage r) as [|[|q]|s]; try discriminate; xsimpl;
    try (eexists; split; [reflexivity|]; rewrite Qred_correct; lra).
  change (inject_Z 10) with 10. change (inject_Z 80) with 80.
  cmp_cases; cbn [is_Lt];
    try (eexists; split; [reflexivity|]; rewrite Qred_correct; lra);
    (cmp_cases; cbn [is_Lt];
     try (eexists; split; [reflexivity|]; rewrite Qred_correct; lra)).
  all: rewrite truediv_exact by (unfold inject_Z; lra); cbn [bind]; xsimpl.
  all: eexists; split; [reflexivity|]. all: unfold inject_Z; qred_all; qdiv; lra.
Qed.

Lemma score_market_range (r : row xnum) :
  text_free r = true ->
  exists v, score_market (PF := xnum_ops parse) r = Ok (XFin v) /\ 0 <= v <= 25.
Proof.
  unfold text_free. intros T.
  repeat (apply andb_prop in T; destruct T as [T ?]).
  repeat match goal with H : negb _ = true |- _ => apply negb_true_iff in H end.
  unfold score_market.
  destruct (rank_score_range r) as (a & -> & Ha); [assumption|].
  destruct (liq_score_range r) as (b & -> & Hb); [assumption..|].
  destruct (ath_score_range r) as (c & -> & Hc); [assumption|].
  xsimpl. eexists; split; [reflexivity|].
  unfold inject_Z; qred_all; lra.
Qed.

Lemma score_momentum_narr_range (r : row xnum) :
  exists v, score_momentum_narr (PF := xnum_ops parse) r = Ok (XFin v) /\ 0 <= v <= 20.
Proof.
  unfold score_momentum_narr. xsimpl. do 2 use_scale.
  xsimpl. eexists; split; [reflexivity|].
  unfold inject_Z; qred_all; lra.
Qed.

Lemma score_personal_range (today : date) (r : row xnum) :
  exists v, score_personal_fundamental (PF := xnum_ops parse) today r = Ok (XFin v)
            /\ 0 <= v <= 10.
Proof.
  unfold score_personal_fundamental. xsimpl. do 4 use_scale.
  xsimpl. eexists; split; [reflexivity|].
  unfold inject_Z; qred_all; lra.
Qed.

(** the guarded quotient in the [try] blocks of [score_tokenomics] *)
Lemma try_ratio_returns (a b : value xnum) :
  exists x,
    try_except
      (x <- py_float (PF := xnum_ops parse) a ;;
       y <- py_float (PF := xnum_ops parse) b ;; truediv (PF := xnum_ops parse) x y)
      type_value_or_zerodiv (Ok (dec (PyFloat := xnum_ops parse) 5 10)) = Ok x.
Proof.
  destruct a as [|x|s]; cbn [py_float bind try_except type_value_or_zerodiv]; eauto.
  - destruct b as [|y|t]; cbn [py_float bind try_except type_value_or_zerodiv]; eauto.
    + unfold truediv. destruct (feq y (of_Z 0)); cbn; eauto.
    + destruct (float_of_text t) as [y|]; cbn [bind try_except type_value_or_zerodiv];
        eauto.
      unfold truediv. destruct (feq y (of_Z 0)); cbn; eauto.
  - destruct (float_of_text s) as [x|]; cbn [bind try_except type_value_or_zerodiv];
      eauto.
    destruct b as [|y|t]; cbn [py_float bind try_except type_value_or_zerodiv]; eauto.
    + unfold truediv. destruct (feq y (of_Z 0)); cbn; eauto.
    + destruct (float_of_text t) as [y|]; cbn [bind try_except type_value_or_zerodiv];
        eauto.
      unfold truediv. destruct (feq y (of_Z 0)); cbn; eauto.
Qed.

Lemma try_ratio_fin (a b : value xnum) :
  nan_free parse a = true -> nan_free parse b = true ->
  exists rho,
    try_except
      (x <- py_float (PF := xnum_ops parse) a ;;
       y <- py_float (PF := xnum_ops parse) b ;; truediv (PF := xnum_ops parse) x y)
      type_value_or_zerodiv (Ok (dec (PyFloat := xnum_ops parse) 5 10)) = Ok (XFin rho).
Proof.
  unfold nan_free. intros Na Nb.
  assert (Ha : (exists p, py_float (PF := xnum_ops parse) a = Ok (XFin p)) \/
               (exists e, py_float (PF := xnum_ops parse) a = Raise e
                          /\ type_value_or_zerodiv e = true)).
  { destruct a as [|[|p]|s]; cbn in *; try discriminate; eauto.
    destruct (parse s) as [[|p]|]; try discriminate; eauto. }
  assert (Hb : (exists q, py_float (PF := xnum_ops parse) b = Ok (XFin q)) \/
               (exists e, py_float (PF := xnum_ops parse) b = Raise e
                          /\ type_value_or_zerodiv e = true)).
  { destruct b as [|[|q]|s]; cbn in *; try discriminate; eauto.
    destruct (parse s) as [[|q]|]; try discriminate; eauto. }
  clear Na Nb.
  destruct Ha as [(p & ->)|(e & -> & He)]; cbn [bind try_except];
    [|rewrite He; cbn; eauto].
  destruct Hb as [(q & ->)|(e & -> & He)]; cbn [bind try_except];
    [|rewrite He; cbn; eauto].
  unfold truediv; cbn [feq fdiv of_Z xnum_ops xcmp xdiv]. change (inject_Z 0) with 0.
  rewrite is_Eq_compare.
  destruct (Qeq_bool q 0); cbn [try_except type_value_or_zerodiv dec xnum_ops]; eauto.
Qed.

Lemma circ_score_range (r : row xnum) :
  nan_free parse (circulating_supply r) = true ->
  nan_free parse (max_supply r) = true ->
  exists v, circ_score (PF := xnum_ops parse) r = Ok (XFin v) /\ 1 # 5 <= v <= 1.
Proof.
  intros Nc Nm. unfold circ_score.
  destruct (isna (max_supply r) || negb (truthy (max_supply r)) || eq_zero (max_supply r)).
  - eexists; split; [reflexivity|]. rewrite Qred_correct; lra.
  - destruct (try_ratio_fin _ _ Nc Nm) as (rho & ->). cbn [bind].
    cbn [flt dec xnum_ops xcmp].
    cmp_cases; cbn [is_Lt];
      try (eexists; split; [reflexivity|]; rewrite Qred_correct; lra);
      (cmp_cases; cbn [is_Lt];
       try (eexists; split; [reflexivity|]; rewrite Qred_correct; lra)).
    all: cbn [fsub fmul xnum_ops xop2].
    all: rewrite truediv_exact by (qred_all; lra); cbn [bind fadd xnum_ops xop2 dec].
    all: eexists; split; [reflexivity|]; qred_all; qdiv; lra.
Qed.

Lemma circ_score_returns (r : row xnum) :
  exists x, circ_score (PF := xnum_ops parse) r = Ok x.
Proof.
  unfold circ_score.
  destruct (isna (max_supply r) || negb (truthy (max_supply r)) || eq_zero (max_supply r));
    [eauto|].
  destruct (try_ratio_returns (circulating_supply r) (max_supply r)) as (x & ->).
  cbn [bind].
  destruct (flt x (dec 3 10)); [eauto|].
  destruct (flt (dec 95 100) x); [eauto|].
  cbn [fsub dec xnum_ops xop2]. unfold truediv at 1.
  cbn [feq of_Z xnum_ops xcmp]. change (inject_Z 0) with 0. rewrite is_Eq_compare.
  destruct (Qeq_bool _ 0) eqn:Z; [|cbn [bind]; eauto].
  apply Qeq_bool_iff in Z. revert Z. qred_all. intros Z. lra.
Qed.

Lemma dilution_spec_range (mc fdv : value xnum) :
  3 # 10 <= dilution_spec mc fdv <= 1.
Proof.
  unfold dilution_spec.
  destruct mc as [|[|m]|]; try lra. destruct fdv as [|[|f]|]; try lra.
  destruct (Qeq_bool m 0 || Qle_bool f 0); [lra|]. cbv zeta.
  destruct (Qle_bool (7 # 10) (m / f)) eqn:A; [lra|].
  destruct (Qle_bool (m / f) (3 # 10)) eqn:B; [lra|].
  assert (A' : ~ 7 # 10 <= m / f) by (intros H; apply Qle_bool_iff in H; congruence).
  assert (B' : ~ m / f <= 3 # 10) by (intros H; apply Qle_bool_iff in H; congruence).
  set (d := m / f) in *. qdiv. lra.
Qed.

Lemma is_Le_compare (p q : Q) : is_Le (p ?= q) = Qle_bool p q.
Proof.
  destruct (Qle_bool p q) eqn:B.
  - apply Qle_bool_iff in B. destruct (p ?= q) eqn:C; try reflexivity.
    apply Qgt_alt in C. lra.
  - destruct (p ?= q) eqn:C; try reflexivity.
    + apply Qeq_alt in C. assert (L : p <= q) by lra. apply Qle_bool_iff in L. congruence.
    + apply Qlt_alt in C. assert (L : p <= q) by lra. apply Qle_bool_iff in L. congruence.
Qed.

Lemma Qle_bool_compat (p p' q q' : Q) :
  p == p' -> q == q' -> Qle_bool p q = Qle_bool p' q'.
Proof.
  intros Hp Hq.
  destruct (Qle_bool p q) eqn:A, (Qle_bool p' q') eqn:B; try reflexivity.
  - apply Qle_bool_iff in A. rewrite Hp, Hq in A. apply Qle_bool_iff in A. congruence.
  - apply Qle_bool_iff in B. rewrite <- Hp, <- Hq in B. apply Qle_bool_iff in B. congruence.
Qed.

Lemma dilution_exact (r : row xnum) :
  is_text (market_cap r) = false ->
  is_text (fully_diluted_valuation r) = false ->
  dilution_score (PF := xnum_ops parse) r
    = Ok (XFin (Qred (dilution_spec (market_cap r) (fully_diluted_valuation r)))).
Proof.
  unfold dilution_score, dilution_spec. intros T1 T2.
  destruct (market_cap r) as [|[|m]|s]; try discriminate; xsimpl; try reflexivity.
  change (inject_Z 0) with 0. rewrite is_Eq_compare.
  destruct (Qeq_bool m 0) eqn:Zm; xsimpl.
  { destruct (fully_diluted_valuation r) as [|[|f]|]; reflexivity. }
  destruct (fully_diluted_valuation r) as [|[|f]|s]; try discriminate; xsimpl;
    try reflexivity.
  change (inject_Z 0) with 0. rewrite is_Eq_compare, is_Le_compare.
  destruct (Qeq_bool f 0) eqn:Zf; xsimpl.
  { apply Qeq_bool_iff in Zf.
    assert (L : Qle_bool f 0 = true) by (apply Qle_bool_iff; lra).
    rewrite L. reflexivity. }
  destruct (Qle_bool f 0) eqn:L; xsimpl; [reflexivity|].
  assert (N : ~ f == 0) by (intros H; apply Qeq_bool_iff in H; congruence).
  rewrite (truediv_exact parse _ N). xsimpl.
  rewrite !is_Le_compare.
  rewrite (Qle_bool_compat (p := Qred (7 # 10)) (p' := 7 # 10)
             (q := Qred (m / f)) (q' := m / f))
    by apply Qred_correct.
  destruct (Qle_bool (7 # 10) (m / f)) eqn:A; [reflexivity|].
  rewrite (Qle_bool_compat (p := Qred (m / f)) (p' := m / f)
             (q := Qred (3 # 10)) (q' := 3 # 10))
    by apply Qred_correct.
  destruct (Qle_bool (m / f) (3 # 10)) eqn:B; [reflexivity|].
  rewrite truediv_exact by (qred_all; lra). xsimpl.
  do 2 f_equal. apply Qred_complete. qred_all. field. exact N.
Qed.

Lemma dilution_returns (r : row xnum) :
  is_text (fully_diluted_valuation r) = false ->
  exists x, dilution_score (PF := xnum_ops parse) r = Ok x.
Proof.
  unfold dilution_score. intros T.
  assert (G : exists c,
             (if isna (PF := xnum_ops parse) (market_cap r) || eq_zero (market_cap r)
                 || isna (fully_diluted_valuation r)
                 || negb (truthy (fully_diluted_valuation r))
              then Ok true else le_zero (fully_diluted_valuation r)) = Ok c).
  { destruct (fully_diluted_valuation r) as [|x|s]; try discriminate.
    - cbn [isna]. rewrite orb_true_r. cbn. eauto.
    - cbn [le_zero]. destruct (_ || _ || _ || _); eauto. }
  destruct G as (c & ->). cbn [bind]. destruct c; [eauto|].
  destruct (try_ratio_returns (market_cap r) (fully_diluted_valuation r)) as (x & ->).
  cbn [bind].
  destruct (fle (dec 7 10) x); [eauto|].
  destruct (fle x (dec 3 10)); [eauto|].
  cbn [fsub dec xnum_ops xop2]. unfold truediv at 1.
  cbn [feq of_Z xnum_ops xcmp]. change (inject_Z 0) with 0. rewrite is_Eq_compare.
  destruct (Qeq_bool _ 0) eqn:Z; [|cbn [bind]; eauto].
  apply Qeq_bool_iff in Z. revert Z. qred_all. intros Z. lra.
Qed.

Lemma score_tokenomics_returns (r : row xnum) :
  is_text (fully_diluted_valuation r) = false ->
  exists x, score_tokenomics (PF := xnum_ops parse) r = Ok x.
Proof.
  intros T. unfold score_tokenomics.
  destruct (circ_score_returns r) as (a & ->).
  destruct (dilution_returns r T) as (b & ->).
  cbn [bind]. eauto.
Qed.

Lemma score_tokenomics_range (r : row xnum) :
  nan_free parse (circulating_supply r) = true ->
  nan_free parse (max_supply r) = true ->
  is_text (market_cap r) = false ->
  is_text (fully_diluted_valuation r) = false ->
  exists v, score_tokenomics (PF := xnum_ops parse) r = Ok (XFin v) /\ 0 <= v <= 25.
Proof.
  intros Nc Nm T1 T2. unfold score_tokenomics.
  destruct (circ_score_range r Nc Nm) as (a & -> & Ha).
  rewrite (dilution_exact r T1 T2).
  pose proof (dilution_spec_range (market_cap r) (fully_diluted_valuation r)) as Hb.
  xsimpl. eexists; split; [reflexivity|].
  unfold inject_Z; qred_all; lra.
Qed.

Lemma mapM_returns (A B : Type) (f : A -> result B) (l : list A) :
  Forall (fun a => exists b, f a = Ok b) l -> exists out, mapM f l = Ok out.
Proof.
  induction 1 as [|a l (b & Hb) _ (out & IH)]; simpl; [eauto|].
  rewrite Hb, IH. simpl. eauto.
Qed.

Lemma text_free_fdv (r : row xnum) :
  text_free r = true -> is_text (fully_diluted_valuation r) = false.
Proof.
  unfold text_free. intros T.
  apply andb_prop in T. destruct T as [_ T]. apply negb_true_iff in T. exact T.
Qed.

(** C1.  For every frame whose rows hold no text where a number is computed
    with, the scoring step of [load_data] returns, and in the frame it
    returns every row's [holder_score_100] is the sum
    [score_market + score_tokenomics + score_momentum_narr +
    score_whales_deriv + score_personal] of the five sub-scores stored for
    that row, each being what its function returns on the row. *)
Theorem holder_score_is_sum (today : date) (df : list (row xnum)) :
  forallb text_free df = true ->
  exists out,
    compute_scores (PF := xnum_ops parse) today df = Ok out /\
    Forall2 (scored_from today) df out.
Proof.
  intros T. rewrite forallb_forall in T. rewrite <- Forall_forall in T.
  assert (H1 : exists sm, mapM score_market df = Ok sm).
  { apply mapM_returns. eapply Forall_impl; [|exact T]. intros r Hr.
    destruct (score_market_range r Hr) as (v & Hv & _). eauto. }
  assert (H2 : exists st, mapM score_tokenomics df = Ok st).
  { apply mapM_returns. eapply Forall_impl; [|exact T]. intros r Hr.
    apply score_tokenomics_returns, text_free_fdv, Hr. }
  assert (H3 : exists smn, mapM score_momentum_narr df = Ok smn).
  { apply mapM_returns. apply Forall_forall. intros r _.
    destruct (score_momentum_narr_range r) as (v & Hv & _). eauto. }
  assert (H4 : exists sp, mapM (score_personal_fundamental today) df = Ok sp).
  { apply mapM_returns. apply Forall_forall. intros r _.
    destruct (score_personal_range today r) as (v & Hv & _). eauto. }
  destruct H1 as (sm & H1), H2 as (st & H2), H3 as (smn & H3), H4 as (sp & H4).
  eexists. split.
  - unfold compute_scores. rewrite H1, H2, H3, H4. reflexivity.
  - apply frame_scored_from; apply mapM_Forall2; assumption.
Qed.

(** C3, as the code has it.  A row whose four fundamentals are all null still
    gets a personal score: [dev_norm = comm_norm = sent_norm = 0.5], while
    [age_norm = scale(0, 0, 10) = 0], so that
    [score_personal = 10 * (0.35*0.5 + 0.25*0.5 + 0.25*0.5 + 0.15*0) = 4.25]
    exactly. *)
Theorem score_personal_without_fundamentals (today : date) (r : row xnum) :
  developer_score r = VNone ->
  community_score r = VNone ->
  sentiment_votes_up_percentage r = VNone ->
  genesis_date r = VNone ->
  scale (VNum (py_min (years_since today (genesis_date r)) (of_Z 10)))
        (of_Z 0) (of_Z 10) = Ok (XFin 0) /\
  score_personal_fundamental (PF := xnum_ops parse) today r = Ok (XFin (17 # 4)).
Proof.
  intros H1 H2 H3 H4. unfold score_personal_fundamental.
  rewrite H1, H2, H3, H4. split; reflexivity.
Qed.

(** C5, as the code has it.  A [max_supply] that is missing (null or NaN) or
    zero means no ratio: the circulation component is the neutral 0.4.  A
    negative [max_supply] is not treated so: the ratio is computed, and with a
    circulating supply that is not negative the component is 0.2. *)
Theorem circ_score_no_ratio (r : row xnum) :
  (missing_or_zero (max_supply r) = true ->
   circ_score (PF := xnum_ops parse) r = Ok (XFin (2 # 5))) /\
  (forall c m : Q,
     max_supply r = VNum (XFin m) -> m < 0 ->
     circulating_supply r = VNum (XFin c) -> 0 <= c ->
     circ_score (PF := xnum_ops parse) r = Ok (XFin (1 # 5))).
Proof.
  unfold circ_score. split.
  - intros M. destruct (max_supply r) as [|[|z]|s]; try discriminate; try reflexivity.
    cbn in M. xsimpl. change (inject_Z 0) with 0. rewrite is_Eq_compare, M.
    reflexivity.
  - intros c m Hm Lm Hc Lc. rewrite Hm, Hc. xsimpl.
    change (inject_Z 0) with 0. rewrite is_Eq_compare.
    assert (Z : Qeq_bool m 0 = false).
    { destruct (Qeq_bool m 0) eqn:Z; [|reflexivity]. apply Qeq_bool_iff in Z. lra. }
    rewrite Z. xsimpl.
    assert (N : ~ m == 0) by lra.
    rewrite (truediv_exact parse c N). xsimpl.
    assert (L : (Qred (c / m) ?= Qred (3 # 10)) = Lt).
    { apply -> Qlt_alt. qred_all.
      assert (O : c / m == (- c) / (- m)) by (field; exact N).
      assert (P : c / m <= 0) by (rewrite O; apply Qle_shift_div_r; lra).
      clear O. set (x := c / m) in *. lra. }
    rewrite L. reflexivity.
Qed.

(** C6, as the code has it.  With numbers (or nulls) for [market_cap] and
    [fully_diluted_valuation], the dilution component is the piecewise formula
    on [d_ratio = market_cap / fdv] ([>= 0.7] gives 1.0, [<= 0.3] gives 0.3,
    else [0.3 + 0.7*(d_ratio - 0.3)/0.4]) whenever both are present,
    [market_cap] is not zero and [fdv > 0], and the neutral 0.5 otherwise; in
    particular a market cap of zero with [fdv > 0] gives 0.5. *)
Theorem dilution_score_contract (r : row xnum) :
  is_text (market_cap r) = false ->
  is_text (fully_diluted_valuation r) = false ->
  dilution_score (PF := xnum_ops parse) r
    = Ok (XFin (Qred (dilution_spec (market_cap r) (fully_diluted_valuation r)))) /\
  (forall m f : Q,
     market_cap r = VNum (XFin m) -> fully_diluted_valuation r = VNum (XFin f) ->
     m == 0 -> 0 < f ->
     dilution_score (PF := xnum_ops parse) r = Ok (XFin (1 # 2))).
Proof.
  intros T1 T2. split; [apply dilution_exact; assumption|].
  intros m f Hm Hf Zm Lf. rewrite dilution_exact by assumption.
  rewrite Hm, Hf. unfold dilution_spec.
  apply Qeq_bool_iff in Zm. rewrite Zm. reflexivity.
Qed.

(** C10.  When [max_supply] is present and not zero (the guard of the
    circulation component does not fire) and [circulating_supply] is [None],
    [float(circ)] raises inside the [try], the ratio defaults to 0.5, and the
    component is [0.2 + 0.8*(0.5 - 0.3)/0.65 = 29/65], about 0.446: neither
    the 0.4 of a missing [max_supply] nor the neutral 0.5.  Nothing is
    raised. *)
Theorem circ_score_missing_circulating (r : row xnum) :
  isna (max_supply r) = false ->
  truthy (max_supply r) = true ->
  eq_zero (max_supply r) = false ->
  circulating_supply r = VNone ->
  circ_score (PF := xnum_ops parse) r = Ok (XFin (29 # 65)) /\
  29 # 65 == (2 # 10) + (8 # 10) * ((5 # 10) - (3 # 10)) / (65 # 100) /\
  (445 # 1000) < 29 # 65 < (447 # 1000) /\
  ~ 29 # 65 == 4 # 10 /\
  ~ 29 # 65 == 5 # 10.
Proof.
  intros H1 H2 H3 H4. split.
  - unfold circ_score. rewrite H1, H2, H3, H4. reflexivity.
  - repeat split; try reflexivity; intros H; discriminate H.
Qed.

(** a NaN for [circulating_supply] next to a usable [max_supply] goes through
    the [try] and makes the circulation component a NaN *)
Lemma circ_score_nan (r : row xnum) (m : Q) :
  circulating_supply r = VNum XNaN ->
  max_supply r = VNum (XFin m) ->
  ~ m == 0 ->
  circ_score (PF := xnum_ops parse) r = Ok XNaN.
Proof.
  intros Hc Hm N. unfold circ_score. rewrite Hc, Hm. xsimpl.
  change (inject_Z 0) with 0. rewrite is_Eq_compare.
  assert (Z : Qeq_bool m 0 = false).
  { destruct (Qeq_bool m 0) eqn:Z; [|reflexivity]. apply Qeq_bool_iff in Z. contradiction. }
  rewrite Z. xsimpl. unfold truediv. xsimpl.
  change (inject_Z 0) with 0. rewrite is_Eq_compare, Z. reflexivity.
Qed.

(** the bound of every sub-score and of their sum, for rows without text
    where a number is computed with and without a NaN in the supply cells *)
Lemma sub_scores_within_bounds (today : date) (r : row xnum) :
  text_free r = true ->
  nan_free parse (circulating_supply r) = true ->
  nan_free parse (max_supply r) = true ->
  exists a b c e,
    score_market (PF := xnum_ops parse) r = Ok (XFin a) /\ 0 <= a <= 25 /\
    score_tokenomics (PF := xnum_ops parse) r = Ok (XFin b) /\ 0 <= b <= 25 /\
    score_momentum_narr (PF := xnum_ops parse) r = Ok (XFin c) /\ 0 <= c <= 20 /\
    0 <= inject_Z 10 <= 20 /\
    score_personal_fundamental (PF := xnum_ops parse) today r = Ok (XFin e)
    /\ 0 <= e <= 10.
Proof.
  intros T Nc Nm.
  destruct (score_market_range r T) as (a & Ha & Ba).
  assert (T' := T). unfold text_free in T'.
  repeat (apply andb_prop in T'; destruct T' as [T' ?]).
  repeat match goal with H : negb _ = true |- _ => apply negb_true_iff in H end.
  destruct (score_tokenomics_range r Nc Nm) as (b & Hb & Bb); [assumption..|].
  destruct (score_momentum_narr_range r) as (c & Hc & Bc).
  destruct (score_personal_range today r) as (e & He & Be).
  exists a, b, c, e. repeat split; try assumption; try tauto; unfold inject_Z; lra.
Qed.

End ExactScores.

(** ** The classifier *)

Section Classifier.

Context {F : Type}.

Lemma prefix_spec (p s : string) :
  String.prefix p s = true <-> exists post, s = (p ++ post)%string.
Proof.
  revert s; induction p as [|c p IH]; intros s.
  - split; [simpl; eauto|intros _; destruct s; reflexivity].
  - destruct s as [|c' s]; simpl.
    + split; [discriminate|intros (post & H); discriminate].
    + destruct (Ascii.ascii_dec c c') as [->|N].
      * rewrite IH. split; intros (post & H); exists post; congruence.
      * split; [discriminate|]. intros (post & H). congruence.
Qed.

Lemma contains_spec (sub s : string) :
  contains sub s = true <-> occurs_in sub s.
Proof.
  unfold occurs_in. induction s as [|c s IH].
  - cbn [contains]. rewrite orb_false_r, prefix_spec. split.
    + intros (post & H). exists EmptyString, post. exact H.
    + intros ([|c pre] & post & H); [eauto|discriminate].
  - cbn [contains]. rewrite orb_true_iff, prefix_spec, IH. split.
    + intros [(post & H)|(pre & post & H)].
      * exists EmptyString, post. exact H.
      * exists (String c pre), post. simpl. congruence.
    + intros ([|c' pre] & post & H).
      * left. exists post. exact H.
      * right. exists pre, post. simpl in H. congruence.
Qed.

Lemma mem_In (x : string) (l : list string) : mem x l = true <-> In x l.
Proof.
  unfold mem. rewrite existsb_exists. split.
  - intros (y & Hy & E). apply String.eqb_eq in E. congruence.
  - intros H. exists x. split; [exact H|apply String.eqb_refl].
Qed.

(** C8.  [is_stable_or_wrapped] is true exactly for the rows whose symbol, in
    lower case, is in the fixed stablecoin set or in the fixed wrapped set, or
    whose name, in lower case, contains "wrapped", "staked ether" or
    "staked eth"; the answer depends on symbol and name only through their
    lower-case form.  So "usdt" in any case is excluded, a name such as
    "Wrapped Bitcoin" is excluded, and "btc"/"Bitcoin" is not. *)
Theorem is_stable_or_wrapped_policy :
  (forall r : row F,
     is_stable_or_wrapped r = true <->
     In (lower (symbol r)) stable_syms \/
     occurs_in "wrapped" (lower (name r)) \/
     (occurs_in "staked ether" (lower (name r)) \/
      occurs_in "staked eth" (lower (name r))) \/
     In (lower (symbol r)) wrapped_syms) /\
  (forall r r' : row F,
     lower (symbol r) = lower (symbol r') -> lower (name r) = lower (name r') ->
     is_stable_or_wrapped r = is_stable_or_wrapped r') /\
  (forall sym nm : string,
     lower sym = "usdt" -> is_stable_or_wrapped (null_row (F := F) sym nm) = true) /\
  is_stable_or_wrapped (null_row (F := F) "USDT" "Tether") = true /\
  is_stable_or_wrapped (null_row (F := F) "UsDt" "Tether") = true /\
  (forall sym : string,
     is_stable_or_wrapped (null_row (F := F) sym "Wrapped Bitcoin") = true) /\
  is_stable_or_wrapped (null_row (F := F) "btc" "Bitcoin") = false /\
  is_stable_or_wrapped (null_row (F := F) "BTC" "Bitcoin") = false.
Proof.
  assert (P : forall r : row F,
     is_stable_or_wrapped r = true <->
     In (lower (symbol r)) stable_syms \/
     occurs_in "wrapped" (lower (name r)) \/
     (occurs_in "staked ether" (lower (name r)) \/
      occurs_in "staked eth" (lower (name r))) \/
     In (lower (symbol r)) wrapped_syms).
  { intros r. unfold is_stable_or_wrapped.
    rewrite <- !mem_In, <- !contains_spec, <- orb_true_iff.
    destruct (mem (lower (symbol r)) stable_syms); [tauto|].
    destruct (contains "wrapped" (lower (name r))); [tauto|].
    destruct (contains "staked ether" (lower (name r))
              || contains "staked eth" (lower (name r))); [tauto|].
    destruct (mem (lower (symbol r)) wrapped_syms); [tauto|].
    split; [discriminate|]. intros [H|[H|[H|H]]]; discriminate. }
  split; [exact P|]. split.
  - intros r r' Hs Hn. unfold is_stable_or_wrapped. rewrite Hs, Hn. reflexivity.
  - split.
    + intros sym nm H. apply P. left. cbn [symbol null_row]. rewrite H.
      simpl. tauto.
    + repeat split; try reflexivity.
      intros sym. apply P. right. left. apply contains_spec. reflexivity.
Qed.

End Classifier.

(** ** What the scores read *)

Section Determinism.

Context {F : Type} {PF : PyFloat F}.



Lemma mapM_app (A B : Type) (f : A -> result B) (l1 l2 : list A) :
  mapM f (l1 ++ l2) = (x <- mapM f l1 ;; y <- mapM f l2 ;; Ok (x ++ y)).
Proof.
  induction l1 as [|a l1 IH]; simpl.
  - destruct (mapM f l2); reflexivity.
  - destruct (f a); simpl; [|reflexivity]. rewrite IH.
    destruct (mapM f l1); simpl; [|reflexivity].
    destruct (mapM f l2); reflexivity.
Qed.

(** a scored row is determined by the row it comes from and the date *)
Lemma scored_from_unique (today : date) (r : row F) (s s' : scored F) :
  scored_from today r s -> scored_from today r s' -> s = s'.
Proof.
  unfold scored_from.
  intros (A1 & A2 & A3 & A4 & A5 & A6 & A7) (B1 & B2 & B3 & B4 & B5 & B6 & B7).
  destruct s, s'; simpl in *. subst.
  rewrite A2 in B2. rewrite A3 in B3. rewrite A4 in B4. rewrite A6 in B6.
  injection B2 as <-. injection B3 as <-. injection B4 as <-. injection B6 as <-.
  subst. reflexivity.
Qed.

Lemma Forall2_scored_unique (today : date) (df : list (row F)) (out out' : list (scored F)) :
  Forall2 (scored_from today) df out -> Forall2 (scored_from today) df out' ->
  out = out'.
Proof.
  intros H. revert out'. induction H as [|r s df out Hrs _ IH]; intros out' H'.
  - inversion H'. reflexivity.
  - inversion H' as [|? s' ? out'' Hrs' H'']; subst.
    f_equal; [eapply scored_from_unique; eassumption|apply IH; assumption].
Qed.

(** the frame is computed row by row: scoring two frames one after the other
    (or side by side) and joining the results is scoring the joined frame *)
Lemma compute_scores_app (today : date) (df1 df2 : list (row F))
    (out1 out2 : list (scored F)) :
  compute_scores today df1 = Ok out1 ->
  compute_scores today df2 = Ok out2 ->
  compute_scores today (df1 ++ df2) = Ok (out1 ++ out2).
Proof.
  intros H1 H2.
  pose proof (compute_scores_rows _ _ H1) as R1.
  pose proof (compute_scores_rows _ _ H2) as R2.
  assert (R : Forall2 (scored_from today) (df1 ++ df2) (out1 ++ out2))
    by (apply Forall2_app; assumption).
  assert (E : exists out, compute_scores today (df1 ++ df2) = Ok out).
  { revert H1 H2. unfold compute_scores. rewrite !mapM_app.
    destruct (mapM score_market df1); simpl; [|discriminate].
    destruct (mapM score_tokenomics df1); simpl; [|discriminate].
    destruct (mapM score_momentum_narr df1); simpl; [|discriminate].
    destruct (mapM (score_personal_fundamental today) df1); simpl; [|discriminate].
    intros _.
    destruct (mapM score_market df2); simpl; [|discriminate].
    destruct (mapM score_tokenomics df2); simpl; [|discriminate].
    destruct (mapM score_momentum_narr df2); simpl; [|discriminate].
    destruct (mapM (score_personal_fundamental today) df2); simpl; [|discriminate].
    eauto. }
  destruct E as (out & E). rewrite E. f_equal.
  eapply Forall2_scored_unique; [|exact R].
  apply compute_scores_rows. exact E.
Qed.


End Determinism.

(** ** Genesis dates *)

Lemma digit_cases (k : Z) :
  is_digit k ->
  k = 0%Z \/ k = 1%Z \/ k = 2%Z \/ k = 3%Z \/ k = 4%Z \/ k = 5%Z \/ k = 6%Z
  \/ k = 7%Z \/ k = 8%Z \/ k = 9%Z.
Proof. unfold is_digit. lia. Qed.

Ltac by_digit k H :=
  destruct (digit_cases H) as [?|[?|[?|[?|[?|[?|[?|[?|[?|?]]]]]]]]]; subst k.

Lemma digit_val_char (k : Z) : is_digit k -> digit_val (digit_char k) = Some k.
Proof. intros H. by_digit k H; reflexivity. Qed.

Lemma digit_not_space (k : Z) : is_digit k -> is_space (digit_char k) = false.
Proof. intros H. by_digit k H; reflexivity. Qed.

Lemma digit_not_dash (k : Z) : is_digit k -> Ascii.eqb (digit_char k) "-" = false.
Proof. intros H. by_digit k H; reflexivity. Qed.

Lemma digits_digits_str (l : list Z) (acc : Z) (b : bool) :
  Forall is_digit l -> l <> [] ->
  digits acc b (digits_str l) = Some (fold_left (fun a k => 10 * a + k)%Z l acc).
Proof.
  intros H. revert acc b. induction H as [|k l Hk Hl IH]; intros acc b N.
  - contradiction.
  - cbn [digits_str digits fold_left]. rewrite (digit_val_char Hk).
    destruct l as [|k' l'].
    + reflexivity.
    + apply IH. discriminate.
Qed.

Lemma rstrip_digits_str (l : list Z) :
  Forall is_digit l -> rstrip (digits_str l) = digits_str l.
Proof.
  induction 1 as [|k l Hk Hl IH]; [reflexivity|].
  cbn [digits_str rstrip]. rewrite IH, (digit_not_space Hk).
  destruct (digits_str l); reflexivity.
Qed.

Lemma py_int_digits_str (l : list Z) :
  Forall is_digit l -> l <> [] ->
  py_int (digits_str l) = Ok (fold_left (fun a k => 10 * a + k)%Z l 0%Z).
Proof.
  intros H N. destruct l as [|k l]; [contradiction|].
  pose proof (digits_digits_str 0 false H N) as D.
  pose proof (rstrip_digits_str H) as R.
  inversion H as [|? ? Hk Hl]; subst.
  unfold py_int. cbn [digits_str lstrip] in *. rewrite (digit_not_space Hk), R.
  by_digit k Hk; cbn [digit_char] in *; simpl ascii_of_nat in *; rewrite D; reflexivity.
Qed.

Lemma split_digits_str (l : list Z) :
  Forall is_digit l -> split "-" (digits_str l) = [digits_str l].
Proof.
  induction 1 as [|k l Hk Hl IH]; [reflexivity|].
  cbn [digits_str split]. rewrite (digit_not_dash Hk), IH. reflexivity.
Qed.

Lemma split_digits_str_dash (l : list Z) (rest : string) :
  Forall is_digit l ->
  split "-" (digits_str l ++ String "-" rest)%string = digits_str l :: split "-" rest.
Proof.
  induction 1 as [|k l Hk Hl IH]; [reflexivity|].
  cbn [digits_str split String.append]. rewrite (digit_not_dash Hk), IH. reflexivity.
Qed.

Lemma pad4_digits (n : Z) :
  pad4 n = digits_str [n / 1000 mod 10; n / 100 mod 10; n / 10 mod 10; n mod 10]%Z.
Proof. reflexivity. Qed.

Lemma pad2_digits (n : Z) : pad2 n = digits_str [n / 10 mod 10; n mod 10]%Z.
Proof. reflexivity. Qed.

Lemma mod10_digit (n : Z) : is_digit (n mod 10).
Proof. unfold is_digit. apply Z.mod_pos_bound. lia. Qed.

Lemma py_int_pad4 (n : Z) : (0 <= n <= 9999)%Z -> py_int (pad4 n) = Ok n.
Proof.
  intros H. rewrite pad4_digits, py_int_digits_str.
  - f_equal. cbn [fold_left]. Z.div_mod_to_equations. lia.
  - repeat constructor; apply mod10_digit.
  - discriminate.
Qed.

Lemma py_int_pad2 (n : Z) : (0 <= n <= 99)%Z -> py_int (pad2 n) = Ok n.
Proof.
  intros H. rewrite pad2_digits, py_int_digits_str.
  - f_equal. cbn [fold_left]. Z.div_mod_to_equations. lia.
  - repeat constructor; apply mod10_digit.
  - discriminate.
Qed.

Lemma days_in_month_le (y m : Z) : (28 <= days_in_month y m <= 31)%Z.
Proof.
  unfold days_in_month.
  destruct (m =? 2)%Z; [destruct (is_leap y); lia|].
  destruct ((m =? 4) || (m =? 6) || (m =? 9) || (m =? 11))%Z; lia.
Qed.

Lemma date_new_inv (y m d : Z) (g : date) :
  date_new y m d = Ok g ->
  g = {| year := y; month := m; day := d |} /\
  (1 <= y <= 9999)%Z /\ (1 <= m <= 12)%Z /\ (1 <= d <= days_in_month y m)%Z.
Proof.
  unfold date_new.
  destruct ((1 <=? y)%Z && (y <=? 9999)%Z && (1 <=? m)%Z && (m <=? 12)%Z
            && (1 <=? d)%Z && (d <=? days_in_month y m)%Z) eqn:C; [|discriminate].
  intros H. injection H as <-.
  repeat (apply andb_prop in C; destruct C as [C ?]).
  repeat match goal with
         | H : (_ <=? _)%Z = true |- _ => apply Z.leb_le in H
         end.
  repeat split; assumption.
Qed.

Lemma split_isoformat (g : date) :
  split "-" (isoformat g) = [pad4 (year g); pad2 (month g); pad2 (day g)].
Proof.
  unfold isoformat. cbn [String.append].
  rewrite pad4_digits, !pad2_digits.
  rewrite !split_digits_str_dash, split_digits_str
    by (repeat constructor; apply mod10_digit).
  reflexivity.
Qed.

(** the text of a date reads back as that date *)
Lemma genesis_day_isoformat (y m d : Z) (g : date) :
  date_new y m d = Ok g -> genesis_day (isoformat g) = Ok g.
Proof.
  intros H. pose proof H as H'.
  apply date_new_inv in H'. destruct H' as (-> & Hy & Hm & Hd).
  pose proof (days_in_month_le y m).
  unfold genesis_day. rewrite split_isoformat.
  cbn [year month day index nth_error bind].
  rewrite py_int_pad4 by lia. cbn [bind].
  rewrite py_int_pad2 by lia. cbn [bind].
  rewrite py_int_pad2 by lia. cbn [bind].
  exact H.
Qed.

Section ExactYears.

Local Open Scope Q_scope.

Variable parse : string -> option xnum.

Local Hint Extern 0 (PyFloat xnum) => exact (xnum_ops parse) : typeclass_instances.





End ExactYears.

(** ** The guards, for any float arithmetic *)

Section Guards.

Context {F : Type} {PF : PyFloat F}.

(** a missing or zero [max_supply] gives the literal 0.4 *)
Lemma circ_score_guard (r : row F) :
  isna (max_supply r) = true \/ eq_zero (max_supply r) = true ->
  circ_score r = Ok (dec 4 10).
Proof.
  intros [H|H]; unfold circ_score; rewrite H; [|rewrite orb_true_r]; reflexivity.
Qed.

(** a missing or zero [market_cap] gives the literal 0.5 *)
Lemma dilution_score_guard (r : row F) :
  isna (market_cap r) = true \/ eq_zero (market_cap r) = true ->
  dilution_score r = Ok (dec 5 10).
Proof.
  intros [H|H]; unfold dilution_score; rewrite H; [|rewrite orb_true_r]; reflexivity.
Qed.

(** [scale] gives the literal 0.5 when [float(x)] raises, when [x] is a NaN
    and when the bounds are equal *)
Lemma scale_neutral (x : value F) (xmin xmax : F) :
  py_float x = Raise TypeError \/ py_float x = Raise ValueError \/
  (exists v, py_float x = Ok v /\ (fisnan v = true \/ feq xmax xmin = true)) ->
  scale x xmin xmax = Ok (dec 5 10).
Proof.
  unfold scale. intros [H|[H|(v & H & [N|E])]]; rewrite H; try reflexivity.
  - rewrite N. reflexivity.
  - rewrite E, orb_true_r. reflexivity.
Qed.

End Guards.

(** ** Binary64 evaluations *)

Section Binary64.

Variable parse : string -> option float.

Local Hint Extern 0 (PyFloat float) => exact (float_ops parse) : typeclass_instances.

Lemma SFcompare_antisym (x y : spec_float) :
  SFcompare x y = option_map CompOpp (SFcompare y x).
Proof.
  destruct x as [s1|s1| |s1 m1 e1], y as [s2|s2| |s2 m2 e2]; simpl;
    try destruct s1; try destruct s2; try reflexivity;
    rewrite (Z.compare_antisym e1 e2); destruct (e1 ?= e2)%Z; simpl; try reflexivity;
    rewrite (Pos.compare_cont_antisym m2 m1 Eq); reflexivity.
Qed.

Lemma is_nan_Prim2SF (a : float) :
  PrimFloat.is_nan a = false -> Prim2SF a <> S754_nan.
Proof.
  unfold PrimFloat.is_nan. rewrite FloatAxioms.eqb_spec. intros H E.
  rewrite E in H. discriminate.
Qed.

Lemma not_ltb_leb (a b : float) :
  PrimFloat.is_nan a = false -> PrimFloat.is_nan b = false ->
  PrimFloat.ltb a b = false -> PrimFloat.leb b a = true.
Proof.
  intros Na Nb. apply is_nan_Prim2SF in Na. apply is_nan_Prim2SF in Nb.
  rewrite FloatAxioms.ltb_spec, FloatAxioms.leb_spec. unfold SFltb, SFleb.
  rewrite (SFcompare_antisym (Prim2SF b) (Prim2SF a)).
  destruct (SFcompare (Prim2SF a) (Prim2SF b)) as [[| |]|] eqn:C; simpl;
    try reflexivity; try discriminate.
  destruct (Prim2SF a), (Prim2SF b); simpl in C; try discriminate; congruence.
Qed.

(** with Python's rounding, whatever the bounds: a result of [scale] that is
    not a NaN lies in [0, 1] *)
Lemma scale_range_binary64 (x : value float) (a b r : float) :
  scale (PF := float_ops parse) x a b = Ok r ->
  PrimFloat.is_nan r = false ->
  PrimFloat.leb 0 r && PrimFloat.leb r 1 = true.
Proof.
  unfold scale. intros H N.
  assert (half : forall u : float, Ok (dec 5 10) = Ok u ->
                 PrimFloat.leb 0 u && PrimFloat.leb u 1 = true).
  { intros u Hu. injection Hu as <-. vm_compute. reflexivity. }
  destruct (py_float x) as [v|e].
  - destruct (fisnan v || feq b a); [apply half; exact H|].
    destruct (truediv (fsub v a) (fsub b a)) as [w|e]; [|discriminate].
    cbn [bind] in H. injection H as <-. unfold clip in *.
    cbn [flt of_Z float_ops] in *.
    change (b64_of_Z 0) with 0%float in *. change (b64_of_Z 1) with 1%float in *.
    destruct (PrimFloat.ltb w 0) eqn:L0; [vm_compute; reflexivity|].
    destruct (PrimFloat.ltb 1 w) eqn:L1; [vm_compute; reflexivity|].
    rewrite (not_ltb_leb (a := w) (b := 0%float) N eq_refl L0).
    rewrite (not_ltb_leb (a := 1%float) (b := w) eq_refl N L1). reflexivity.
  - destruct (type_or_value e); [apply half; exact H|discriminate].
Qed.

(** a limit of the exact reading: with bounds so far apart that their
    difference overflows, the quotient of two infinities is a NaN *)
Lemma scale_overflow_binary64 :
  scale (PF := float_ops parse) (VNum 1e308%float) (-1e308)%float 1e308%float
    = Ok nan.
Proof. vm_compute. reflexivity. Qed.

(** the personal score of a row without fundamentals, with Python's rounding *)
Lemma score_personal_without_fundamentals_binary64 (today : date) (r : row float) :
  developer_score r = VNone ->
  community_score r = VNone ->
  sentiment_votes_up_percentage r = VNone ->
  genesis_date r = VNone ->
  score_personal_fundamental (PF := float_ops parse) today r = Ok 4.25%float.
Proof.
  intros H1 H2 H3 H4. unfold score_personal_fundamental.
  rewrite H1, H2, H3, H4. vm_compute. reflexivity.
Qed.

(** the circulation component of a row without circulating supply, with
    Python's rounding *)
Lemma circ_score_missing_circulating_binary64 (r : row float) :
  isna (max_supply r) = false ->
  truthy (max_supply r) = true ->
  eq_zero (max_supply r) = false ->
  circulating_supply r = VNone ->
  circ_score (PF := float_ops parse) r = Ok 0.44615384615384623%float.
Proof.
  intros H1 H2 H3 H4. unfold circ_score. rewrite H1, H2, H3, H4.
  vm_compute. reflexivity.
Qed.

End Binary64.

(** ** Evaluations on sample rows *)

(** C4.  A NaN for [circulating_supply] (a null of the numeric column) next
    to a [max_supply] that is present makes [score_tokenomics] a NaN, outside
    [0, 25], and with it [holder_score_100]: the [try] around the ratio does
    not catch it, while a null [max_supply] or [market_cap] is tested with
    [pd.isna]. *)
Theorem nan_supply_gives_nan_score :
  score_tokenomics (PF := X)
    (with_supply btc_row (VNum XNaN) (VNum (XFin 21000000))) = Ok XNaN /\
  score_tokenomics (PF := B)
    (with_supply btc_row (VNum nan) (VNum 21000000%float)) = Ok nan /\
  option_map (map (fun s => (col_score_tokenomics s, col_holder_score_100 s)))
    (match compute_scores (PF := B) d20261104
             [with_supply btc_row (VNum nan) (VNum 21000000%float)] with
     | Ok out => Some out
     | Raise _ => None
     end) = Some [(nan, nan)].
Proof.
  repeat split; vm_compute; reflexivity.
Qed.

(** C3 fails as stated: for a row without fundamentals the personal score is
    4.25, not 5.0, since [scale(0, 0, 10)] is 0 and not 0.5. *)
Lemma null_fundamentals_score_is_not_5 :
  score_personal_fundamental (PF := X) d20261104 (null_row "btc" "Bitcoin")
    = Ok (XFin (17 # 4)) /\
  score_personal_fundamental (PF := X) d20261104 (null_row "btc" "Bitcoin")
    <> Ok (XFin 5) /\
  scale (PF := X) (VNum (XFin 0)) (XFin 0) (XFin 10) = Ok (XFin 0) /\
  score_personal_fundamental (PF := B) d20261104 (null_row "btc" "Bitcoin")
    = Ok 4.25%float.
Proof.
  repeat split; try (vm_compute; reflexivity).
  vm_compute. discriminate.
Qed.

(** C5 fails as stated: a negative [max_supply] is not treated as missing;
    with supply 1 of -1 the circulation component is 0.2, not 0.4. *)
Lemma negative_max_supply_is_not_neutral :
  circ_score (PF := X) (with_supply btc_row (VNum (XFin 1)) (VNum (XFin (-1))))
    = Ok (XFin (1 # 5)) /\
  circ_score (PF := X) (with_supply btc_row (VNum (XFin 1)) (VNum (XFin (-1))))
    <> Ok (XFin (2 # 5)) /\
  circ_score (PF := X) (with_supply btc_row (VNum (XFin 1)) VNone)
    = Ok (XFin (2 # 5)) /\
  circ_score (PF := B) (with_supply btc_row (VNum 1%float) (VNum (-1)%float))
    = Ok 0.2%float.
Proof.
  repeat split; try (vm_compute; reflexivity).
  vm_compute. discriminate.
Qed.

(** C6 fails as stated: with a market cap of zero and [fdv > 0] the dilution
    component is the neutral 0.5, not the 0.3 of the formula at
    [d_ratio = 0]. *)
Lemma zero_market_cap_is_neutral :
  dilution_score (PF := X) (with_market_cap btc_row (VNum (XFin 0)))
    = Ok (XFin (1 # 2)) /\
  dilution_score (PF := X) (with_market_cap btc_row (VNum (XFin 0)))
    <> Ok (XFin (3 # 10)) /\
  dilution_score (PF := B) (with_market_cap btc_row (VNum 0%float))
    = Ok 0.5%float.
Proof.
  repeat split; try (vm_compute; reflexivity).
  vm_compute. discriminate.
Qed.


(** the examples of the specification for [years_since], with Python's
    rounding: 4115 days from 2015-07-30 to 2026-11-04 *)
Lemma years_since_examples :
  years_since (PF := B) d20261104 VNone = 0%float /\
  years_since (PF := B) d20261104 (VStr "bad-date") = 0%float /\
  years_since (PF := B) d20261104 (VStr "2015-02-30") = 0%float /\
  years_since (PF := B) d20261104 (VStr "2015-07-30") = (4115 / 365.25)%float /\
  years_since (PF := X) d20261104 (VStr "2015-07-30") = XFin (16460 # 1461).
Proof.
  repeat split; vm_compute; reflexivity.
Qed.

(** ** The theorems at concrete rows *)

Lemma holder_score_is_sum_witness :
  exists out,
    compute_scores (PF := X) d20261104 [btc_row; null_row "eth" "Ethereum"] = Ok out /\
    Forall2 (scored_from d20261104) [btc_row; null_row "eth" "Ethereum"] out.
Proof.
  apply (holder_score_is_sum no_text d20261104 [btc_row; null_row "eth" "Ethereum"]).
  reflexivity.
Defined.

Lemma score_personal_without_fundamentals_witness :
  scale (PF := X)
    (VNum (py_min (years_since d20261104 (genesis_date (null_row "btc" "Bitcoin")))
                  (of_Z 10)))
    (of_Z 0) (of_Z 10) = Ok (XFin 0) /\
  score_personal_fundamental (PF := X) d20261104 (null_row "btc" "Bitcoin")
    = Ok (XFin (17 # 4)).
Proof.
  apply (score_personal_without_fundamentals no_text d20261104
           (null_row "btc" "Bitcoin")); reflexivity.
Defined.

Lemma circ_score_no_ratio_witness :
  circ_score (PF := X) (with_supply btc_row (VNum (XFin 19000000)) (VNum (XFin 0)))
    = Ok (XFin (2 # 5)) /\
  circ_score (PF := X) (with_supply btc_row (VNum (XFin 1)) (VNum (XFin (-1))))
    = Ok (XFin (1 # 5)).
Proof.
  split.
  - apply (proj1 (circ_score_no_ratio no_text
             (with_supply btc_row (VNum (XFin 19000000)) (VNum (XFin 0))))).
    reflexivity.
  - apply (proj2 (circ_score_no_ratio no_text
             (with_supply btc_row (VNum (XFin 1)) (VNum (XFin (-1)))))
             1%Q (-1)%Q); try reflexivity.
    unfold Qle; simpl; lia.
Defined.

Lemma dilution_score_contract_witness :
  dilution_score (PF := X) (with_market_cap btc_row (VNum (XFin 0)))
    = Ok (XFin (1 # 2)).
Proof.
  apply (proj2 (dilution_score_contract no_text
           (with_market_cap btc_row (VNum (XFin 0))) eq_refl eq_refl)
           0%Q 1050000000000%Q); reflexivity.
Defined.

Lemma circ_score_missing_circulating_witness :
  circ_score (PF := X) (with_supply btc_row VNone (VNum (XFin 21000000)))
    = Ok (XFin (29 # 65)).
Proof.
  apply (circ_score_missing_circulating no_text
           (with_supply btc_row VNone (VNum (XFin 21000000))));
    reflexivity.
Defined.


(** * Further properties *)

(** ** The normaliser *)

Section MoreScale.

Local Open Scope Q_scope.

Variable parse : string -> option xnum.

Local Hint Extern 0 (PyFloat xnum) => exact (xnum_ops parse) : typeclass_instances.

Lemma Qclip_monotone (v w lo hi : Q) :
  lo <= hi -> v <= w -> Qclip v lo hi <= Qclip w lo hi.
Proof.
  intros L H. unfold Qclip.
  destruct (v ?= lo) eqn:A; [apply Qeq_alt in A|apply Qlt_alt in A|apply Qgt_alt in A];
    (destruct (w ?= lo) eqn:B;
     [apply Qeq_alt in B|apply Qlt_alt in B|apply Qgt_alt in B]);
    (destruct (hi ?= v) eqn:C;
     [apply Qeq_alt in C|apply Qlt_alt in C|apply Qgt_alt in C]);
    (destruct (hi ?= w) eqn:D;
     [apply Qeq_alt in D|apply Qlt_alt in D|apply Qgt_alt in D]); lra.
Qed.

(** [scale] does not decrease when [x] grows, for bounds [xmin < xmax]: of
    two cells holding numbers [p <= q], the second is scaled at least as
    high. *)
Theorem scale_monotone (x y : value xnum) (p q a b : Q) :
  number_of parse x = Some p ->
  number_of parse y = Some q ->
  a < b -> p <= q ->
  exists u v,
    scale (PF := xnum_ops parse) x (XFin a) (XFin b) = Ok (XFin u) /\
    scale (PF := xnum_ops parse) y (XFin a) (XFin b) = Ok (XFin v) /\
    u <= v.
Proof.
  intros Hx Hy L H.
  exists (Qred (scale_spec parse x a b)), (Qred (scale_spec parse y a b)).
  split; [apply scale_exact|]. split; [apply scale_exact|].
  rewrite !Qred_correct. unfold scale_spec. rewrite Hx, Hy.
  assert (N : Qeq_bool a b = false).
  { destruct (Qeq_bool a b) eqn:E; [|reflexivity]. apply Qeq_bool_iff in E. lra. }
  rewrite N. apply Qclip_monotone; [lra|].
  apply Qmult_le_compat_r; [lra|].
  apply Qlt_le_weak, Qinv_lt_0_compat. lra.
Qed.

End MoreScale.

(** ** Ranges of the scores *)

Section ScoreRanges.

Local Open Scope Q_scope.

Variable parse : string -> option xnum.

Local Hint Extern 0 (PyFloat xnum) => exact (xnum_ops parse) : typeclass_instances.

Ltac scale_step :=
  match goal with
  | |- context [scale (PF := xnum_ops parse) ?x (XFin ?a) (XFin ?b)] =>
      let v := fresh "v" in
      let Ev := fresh "Ev" in
      let Hv := fresh "Hv" in
      destruct (scale_unit parse x a b) as (v & Ev & Hv); rewrite Ev; clear Ev; cbn [bind]
  end.

Lemma text_free_cells (r : row xnum) :
  text_free r = true ->
  is_text (market_cap_rank r) = false /\ is_text (market_cap r) = false /\
  is_text (total_volume r) = false /\ is_text (ath_change_percentage r) = false /\
  is_text (fully_diluted_valuation r) = false.
Proof.
  unfold text_free. intros T.
  repeat (apply andb_prop in T; destruct T as [T ?]).
  repeat match goal with H : negb _ = true |- _ => apply negb_true_iff in H end.
  tauto.
Qed.

Lemma score_market_tight (r : row xnum) :
  text_free r = true ->
  exists v, score_market (PF := xnum_ops parse) r = Ok (XFin v) /\ 3 # 2 <= v <= 25.
Proof.
  intros T. destruct (text_free_cells r T) as (T1 & T2 & T3 & T4 & _).
  unfold score_market.
  destruct (rank_score_range parse r T1) as (a & -> & Ha).
  destruct (liq_score_range parse r T2 T3) as (b & -> & Hb).
  destruct (ath_score_range parse r T4) as (c & -> & Hc).
  xsimpl. eexists; split; [reflexivity|].
  unfold inject_Z; qred_all; lra.
Qed.

Lemma score_momentum_narr_tight (r : row xnum) :
  exists v, score_momentum_narr (PF := xnum_ops parse) r = Ok (XFin v)
            /\ 18 # 5 <= v <= 88 # 5.
Proof.
  unfold score_momentum_narr. xsimpl. do 2 scale_step.
  xsimpl. eexists; split; [reflexivity|].
  unfold inject_Z; qred_all; lra.
Qed.

(** the circulation component is a NaN or lies in [0.2, 1] *)
Lemma circ_score_nan_or_range (r : row xnum) :
  exists x, circ_score (PF := xnum_ops parse) r = Ok x /\
            (x = XNaN \/ exists v, x = XFin v /\ 1 # 5 <= v <= 1).
Proof.
  unfold circ_score.
  destruct (isna (max_supply r) || negb (truthy (max_supply r)) || eq_zero (max_supply r)).
  - eexists; split; [reflexivity|]. right. eexists; split; [reflexivity|].
    rewrite Qred_correct; lra.
  - destruct (try_ratio_returns parse (circulating_supply r) (max_supply r))
      as ([|rho] & ->); cbn [bind].
    + eexists; split; [vm_compute; reflexivity|]. left; reflexivity.
    + cbn [flt dec xnum_ops xcmp].
      cmp_cases; cbn [is_Lt];
        try (eexists; split; [reflexivity|]; right; eexists; split; [reflexivity|];
             rewrite Qred_correct; lra);
        (cmp_cases; cbn [is_Lt];
         try (eexists; split; [reflexivity|]; right; eexists; split; [reflexivity|];
              rewrite Qred_correct; lra)).
      all: cbn [fsub fmul xnum_ops xop2].
      all: rewrite truediv_exact by (qred_all; lra); cbn [bind fadd xnum_ops xop2 dec].
      all: eexists; split; [reflexivity|]; right; eexists; split; [reflexivity|].
      all: qred_all; qdiv; lra.
Qed.

(** the tokenomics score is a NaN or lies in [8, 23] *)
Lemma score_tokenomics_nan_or_range (r : row xnum) :
  text_free r = true ->
  exists x, score_tokenomics (PF := xnum_ops parse) r = Ok x /\
            (x = XNaN \/ exists v, x = XFin v /\ 8 <= v <= 23).
Proof.
  intros T. destruct (text_free_cells r T) as (_ & T2 & _ & _ & T5).
  unfold score_tokenomics.
  destruct (circ_score_nan_or_range r) as (x & -> & Hx).
  rewrite (dilution_exact parse r T2 T5).
  pose proof (dilution_spec_range (market_cap r) (fully_diluted_valuation r)) as Hb.
  cbn [bind]. destruct Hx as [->|(a & -> & Ha)].
  - eexists; split; [reflexivity|]. left. reflexivity.
  - xsimpl. eexists; split; [reflexivity|]. right. eexists; split; [reflexivity|].
    unfold inject_Z; qred_all; lra.
Qed.

End ScoreRanges.

(** ** The scoring step returns *)

Section Returns.

Context {F : Type} {PF : PyFloat F}.

Hypothesis divisors : divisors_nonzero.

Lemma truediv_returns (a b : F) :
  feq b (of_Z 0) = false -> truediv a b = Ok (fdiv a b).
Proof. intros H. unfold truediv. rewrite H. reflexivity. Qed.

Lemma scale_returns (x : value F) (xmin xmax : F) :
  feq (fsub xmax xmin) (of_Z 0) = false ->
  exists v, scale x xmin xmax = Ok v.
Proof.
  intros H. unfold scale.
  destruct (py_float x) as [v|e] eqn:E.
  - destruct (fisnan v || feq xmax xmin); [eauto|].
    rewrite truediv_returns by exact H. cbn [bind]. eauto.
  - destruct x as [| |s]; cbn in E.
    + injection E as <-. cbn. eauto.
    + discriminate.
    + destruct (float_of_text s); [discriminate|]. injection E as <-. cbn. eauto.
Qed.

Ltac scale_ok H :=
  match goal with
  | |- context [scale ?x ?a ?b] =>
      let v := fresh "v" in
      let Ev := fresh "Ev" in
      destruct (scale_returns x a b H) as (v & Ev);
      rewrite Ev; clear Ev; cbn [bind]
  end.

Lemma rank_score_returns (r : row F) :
  is_text (market_cap_rank r) = false -> exists v, rank_score r = Ok v.
Proof.
  destruct divisors as (D1 & _).
  unfold rank_score. intros T.
  destruct (market_cap_rank r) as [|x|s]; try discriminate; cbn [isna].
  - cbn [rsub bind]. scale_ok D1. eauto.
  - destruct (fisnan x); cbn [rsub bind]; scale_ok D1; eauto.
Qed.

Lemma liq_score_returns (r : row F) :
  is_text (market_cap r) = false -> is_text (total_volume r) = false ->
  exists v, liq_score r = Ok v.
Proof.
  destruct divisors as (_ & D2 & _).
  unfold liq_score. intros T1 T2.
  destruct (market_cap r) as [|m|s]; try discriminate; cbn [isna eq_zero orb].
  - cbn [bind]. scale_ok D2. eauto.
  - destruct (fisnan m || feq m (of_Z 0)) eqn:G.
    + cbn [bind]. scale_ok D2. eauto.
    + apply orb_false_elim in G. destruct G as [_ G].
      unfold py_or.
      destruct (total_volume r) as [|v|s]; try discriminate; cbn [truthy].
      * cbn [py_truediv]. rewrite truediv_returns by exact G. cbn [bind]. scale_ok D2. eauto.
      * destruct (negb (feq v (of_Z 0))); cbn [py_truediv];
          rewrite truediv_returns by exact G; cbn [bind]; scale_ok D2; eauto.
Qed.

Lemma ath_score_returns (r : row F) :
  is_text (ath_change_percentage r) = false -> exists v, ath_score r = Ok v.
Proof.
  destruct divisors as (_ & _ & _ & _ & _ & _ & _ & D8 & _).
  unfold ath_score. intros T.
  destruct (ath_change_percentage r) as [|x|s]; try discriminate; cbn [isna].
  - eauto.
  - destruct (fisnan x); [eauto|]. cbn [py_neg bind].
    destruct (flt (fneg x) (of_Z 10)); [eauto|].
    destruct (flt (of_Z 80) (fneg x)); [eauto|].
    rewrite truediv_returns by exact D8. cbn [bind]. eauto.
Qed.

Lemma score_market_returns (r : row F) :
  text_free r = true -> exists v, score_market r = Ok v.
Proof.
  unfold text_free. intros T.
  repeat (apply andb_prop in T; destruct T as [T ?]).
  repeat match goal with H : negb _ = true |- _ => apply negb_true_iff in H end.
  unfold score_market.
  destruct (rank_score_returns r) as (a & ->); [assumption|].
  destruct (liq_score_returns r) as (b & ->); [assumption..|].
  destruct (ath_score_returns r) as (c & ->); [assumption|].
  cbn [bind]. eauto.
Qed.

(** the guarded quotient of the [try] blocks returns, whatever the cells *)
Lemma try_ratio_ok (a b : value F) :
  exists x,
    try_except (x <- py_float a ;; y <- py_float b ;; truediv x y)
      type_value_or_zerodiv (Ok (dec 5 10)) = Ok x.
Proof.
  assert (Hf : forall c : value F,
             (exists v, py_float c = Ok v) \/
             (exists e, py_float c = Raise e /\ type_value_or_zerodiv e = true)).
  { intros [|v|s]; cbn; eauto. destruct (float_of_text s); eauto. }
  destruct (Hf a) as [(x & ->)|(e & -> & He)]; cbn [bind try_except];
    [|rewrite He; eauto].
  destruct (Hf b) as [(y & ->)|(e & -> & He)]; cbn [bind try_except];
    [|rewrite He; eauto].
  unfold truediv. destruct (feq y (of_Z 0)); cbn; eauto.
Qed.

Lemma circ_score_ok (r : row F) : exists v, circ_score r = Ok v.
Proof.
  destruct divisors as (_ & _ & _ & _ & _ & _ & _ & _ & D9 & _).
  unfold circ_score.
  destruct (isna (max_supply r) || negb (truthy (max_supply r)) || eq_zero (max_supply r));
    [eauto|].
  destruct (try_ratio_ok (circulating_supply r) (max_supply r)) as (x & ->).
  cbn [bind].
  destruct (flt x (dec 3 10)); [eauto|].
  destruct (flt (dec 95 100) x); [eauto|].
  rewrite truediv_returns by exact D9. cbn [bind]. eauto.
Qed.

Lemma dilution_score_ok (r : row F) :
  is_text (fully_diluted_valuation r) = false -> exists v, dilution_score r = Ok v.
Proof.
  destruct divisors as (_ & _ & _ & _ & _ & _ & _ & _ & _ & D10).
  unfold dilution_score. intros T.
  assert (G : exists c,
             (if isna (market_cap r) || eq_zero (market_cap r)
                 || isna (fully_diluted_valuation r)
                 || negb (truthy (fully_diluted_valuation r))
              then Ok true else le_zero (fully_diluted_valuation r)) = Ok c).
  { destruct (fully_diluted_valuation r) as [|x|s]; try discriminate.
    - cbn [isna]. rewrite orb_true_r. cbn. eauto.
    - cbn [le_zero]. destruct (_ || _ || _ || _); eauto. }
  destruct G as (c & ->). cbn [bind]. destruct c; [eauto|].
  destruct (try_ratio_ok (market_cap r) (fully_diluted_valuation r)) as (x & ->).
  cbn [bind].
  destruct (fle (dec 7 10) x); [eauto|].
  destruct (fle x (dec 3 10)); [eauto|].
  rewrite truediv_returns by exact D10. cbn [bind]. eauto.
Qed.

Lemma score_tokenomics_ok (r : row F) :
  text_free r = true -> exists v, score_tokenomics r = Ok v.
Proof.
  unfold text_free. intros T.
  apply andb_prop in T. destruct T as [_ T]. apply negb_true_iff in T.
  unfold score_tokenomics.
  destruct (circ_score_ok r) as (a & ->).
  destruct (dilution_score_ok r T) as (b & ->).
  cbn [bind]. eauto.
Qed.

Lemma score_momentum_narr_ok (r : row F) : exists v, score_momentum_narr r = Ok v.
Proof.
  destruct divisors as (_ & _ & D3 & D4 & _).
  unfold score_momentum_narr. scale_ok D3. scale_ok D4. eauto.
Qed.

Lemma score_personal_ok (today : date) (r : row F) :
  exists v, score_personal_fundamental today r = Ok v.
Proof.
  destruct divisors as (_ & _ & _ & _ & D5 & D6 & D7 & _).
  unfold score_personal_fundamental.
  scale_ok D5. scale_ok D5. scale_ok D6. scale_ok D7. eauto.
Qed.

(** In any float arithmetic in which the ten divisors of the formulas are not
    zero, the scoring step returns for every frame without text in the cells
    it computes with, and the frame it returns holds, row by row, the five
    sub-scores and their sum. *)
Lemma compute_scores_returns (today : date) (df : list (row F)) :
  forallb text_free df = true ->
  exists out, compute_scores today df = Ok out /\ Forall2 (scored_from today) df out.
Proof.
  intros T. rewrite forallb_forall in T. rewrite <- Forall_forall in T.
  assert (H1 : exists sm, mapM score_market df = Ok sm).
  { apply mapM_returns. eapply Forall_impl; [|exact T]. intros r Hr.
    apply score_market_returns, Hr. }
  assert (H2 : exists st, mapM score_tokenomics df = Ok st).
  { apply mapM_returns. eapply Forall_impl; [|exact T]. intros r Hr.
    apply score_tokenomics_ok, Hr. }
  assert (H3 : exists smn, mapM score_momentum_narr df = Ok smn).
  { apply mapM_returns. apply Forall_forall. intros r _. apply score_momentum_narr_ok. }
  assert (H4 : exists sp, mapM (score_personal_fundamental today) df = Ok sp).
  { apply mapM_returns. apply Forall_forall. intros r _. apply score_personal_ok. }
  destruct H1 as (sm & H1), H2 as (st & H2), H3 as (smn & H3), H4 as (sp & H4).
  eexists. split.
  - unfold compute_scores. rewrite H1, H2, H3, H4. reflexivity.
  - apply frame_scored_from; apply mapM_Forall2; assumption.
Qed.

End Returns.

Lemma divisors_nonzero_binary64 (parse : string -> option float) :
  divisors_nonzero (PF := float_ops parse).
Proof. repeat split. Qed.

Lemma divisors_nonzero_exact (parse : string -> option xnum) :
  divisors_nonzero (PF := xnum_ops parse).
Proof. repeat split. Qed.

(** With Python's rounding, the scoring step of [load_data] returns for every
    frame without text in the cells it computes with (no ZeroDivisionError,
    no TypeError), and each row of the result holds the five sub-scores of
    its row and their float sum. *)
Theorem compute_scores_returns_binary64 (parse : string -> option float)
    (today : date) (df : list (row float)) :
  forallb text_free df = true ->
  exists out,
    compute_scores (PF := float_ops parse) today df = Ok out /\
    Forall2 (scored_from (PF := float_ops parse) today) df out.
Proof.
  apply compute_scores_returns. apply divisors_nonzero_binary64.
Qed.

(** ** The holder score and the table *)

Section HolderRange.

Local Open Scope Q_scope.

Variable parse : string -> option xnum.

Local Hint Extern 0 (PyFloat xnum) => exact (xnum_ops parse) : typeclass_instances.

Lemma scored_from_in_reach (today : date) (r : row xnum) (s : scored xnum) :
  text_free r = true -> scored_from (PF := xnum_ops parse) today r s -> in_reach s.
Proof.
  intros T (_ & H1 & H2 & H3 & H4 & H5 & H6).
  destruct (score_market_tight parse r T) as (a & Ea & Ba).
  destruct (score_tokenomics_nan_or_range parse r T) as (x & Ex & Bx).
  destruct (score_momentum_narr_tight parse r) as (c & Ec & Bc).
  destruct (score_personal_range parse today r) as (e & Ee & Be).
  rewrite Ea in H1. rewrite Ex in H2. rewrite Ec in H3. rewrite Ee in H5.
  injection H1 as H1. injection H2 as H2. injection H3 as H3. injection H5 as H5.
  unfold in_reach. rewrite H6, <- H1, <- H2, <- H3, <- H4, <- H5.
  split; [eauto|]. split; [eauto|]. split; [reflexivity|]. split; [eauto|].
  destruct Bx as [->|(b & -> & Bb)].
  - left. split; reflexivity.
  - right. exists b. eexists. split; [reflexivity|]. split; [exact Bb|].
    split; [reflexivity|]. cbn [score_whales_deriv of_Z xnum_ops].
    unfold inject_Z; qred_all; lra.
Qed.

Lemma scored_rows_in_reach (today : date) (df : list (row xnum))
    (out : list (scored xnum)) :
  forallb text_free df = true ->
  Forall2 (scored_from (PF := xnum_ops parse) today) df out ->
  Forall in_reach out.
Proof.
  intros T R. rewrite forallb_forall in T. rewrite <- Forall_forall in T.
  induction R as [|r s df out Hrs _ IH]; constructor.
  - inversion T; subst. eapply scored_from_in_reach; eassumption.
  - apply IH. inversion T; assumption.
Qed.


(** With a threshold of 86 or more on the slider the table of the dashboard
    is empty, whatever the frame (without text in the cells computed with):
    the comparison is false on a NaN and no score exceeds 85.6. *)
Theorem filter_above_reach_is_empty (today : date) (df : list (row xnum))
    (min_holder : Z) :
  forallb text_free df = true ->
  (86 <= min_holder)%Z ->
  exists out,
    compute_scores (PF := xnum_ops parse) today df = Ok out /\
    filter_by_score min_holder out = [].
Proof.
  intros T M.
  destruct (compute_scores_returns (divisors_nonzero_exact parse) today df T)
    as (out & E & R0).
  exists out. split; [exact E|].
  pose proof (scored_rows_in_reach T R0) as R.
  clear E R0. induction R as [|s out Hs _ IH]; [reflexivity|].
  unfold filter_by_score in *. cbn [filter]. rewrite IH.
  destruct Hs as (_ & _ & _ & _ & [(_ & ->)|(b & h & _ & _ & -> & Hh)]).
  - reflexivity.
  - cbn [fle of_Z xnum_ops xcmp].
    destruct (inject_Z min_holder ?= h) eqn:C; cbn [is_Le]; try reflexivity;
      [apply Qeq_alt in C|apply Qlt_alt in C];
      (assert (86 <= inject_Z min_holder)
        by (change 86 with (inject_Z 86); rewrite <- Zle_Qle; exact M)); lra.
Qed.

End HolderRange.

(** ** A NaN in binary64 *)

Lemma SFcompare_refl (f : spec_float) :
  f <> S754_nan -> SFcompare f f = Some Eq.
Proof.
  destruct f as [s|s| |s m e]; intros N; try contradiction; simpl;
    rewrite ?Z.compare_refl, ?Pos.compare_cont_refl; destruct s; reflexivity.
Qed.

Lemma is_nan_eq (x : float) : PrimFloat.is_nan x = true -> x = nan.
Proof.
  unfold PrimFloat.is_nan. rewrite FloatAxioms.eqb_spec. unfold SFeqb. intros H.
  assert (E : Prim2SF x = S754_nan).
  { destruct (Prim2SF x) as [s|s| |s m e] eqn:P; try reflexivity;
      rewrite SFcompare_refl in H by discriminate; discriminate. }
  rewrite <- (SF2Prim_Prim2SF x), E. reflexivity.
Qed.

Lemma add_nan_l (y : float) : (nan + y)%float = nan.
Proof. rewrite <- (SF2Prim_Prim2SF (nan + y)), add_spec. reflexivity. Qed.

Lemma add_nan_r (x : float) : (x + nan)%float = nan.
Proof.
  rewrite <- (SF2Prim_Prim2SF (x + nan)), add_spec.
  destruct (Prim2SF x); reflexivity.
Qed.

Lemma sub_nan_l (y : float) : (nan - y)%float = nan.
Proof. rewrite <- (SF2Prim_Prim2SF (nan - y)), sub_spec. reflexivity. Qed.

Lemma mul_nan_r (x : float) : (x * nan)%float = nan.
Proof.
  rewrite <- (SF2Prim_Prim2SF (x * nan)), mul_spec.
  destruct (Prim2SF x); reflexivity.
Qed.

Lemma div_nan_l (y : float) : (nan / y)%float = nan.
Proof. rewrite <- (SF2Prim_Prim2SF (nan / y)), div_spec. reflexivity. Qed.

Lemma ltb_nan_l (y : float) : (nan <? y)%float = false.
Proof. rewrite FloatAxioms.ltb_spec. reflexivity. Qed.

Lemma ltb_nan_r (x : float) : (x <? nan)%float = false.
Proof. rewrite FloatAxioms.ltb_spec. destruct (Prim2SF x); reflexivity. Qed.

Lemma leb_nan_r (x : float) : (x <=? nan)%float = false.
Proof. rewrite FloatAxioms.leb_spec. destruct (Prim2SF x); reflexivity. Qed.

Section NaNSupply.

Variable parse : string -> option float.

Local Hint Extern 0 (PyFloat float) => exact (float_ops parse) : typeclass_instances.

Lemma circ_score_nan_binary64 (r : row float) (m : float) :
  circulating_supply r = VNum nan ->
  max_supply r = VNum m ->
  PrimFloat.is_nan m = false ->
  PrimFloat.eqb m 0 = false ->
  circ_score (PF := float_ops parse) r = Ok nan.
Proof.
  intros Hc Hm N Z. unfold circ_score. rewrite Hc, Hm.
  cbn [isna truthy eq_zero fisnan feq of_Z float_ops].
  change (b64_of_Z 0) with 0%float. rewrite N, Z.
  cbn [negb orb py_float bind]. unfold truediv at 1.
  cbn [feq of_Z float_ops fdiv]. change (b64_of_Z 0) with 0%float. rewrite Z.
  cbn [try_except bind]. rewrite div_nan_l.
  cbn [flt dec float_ops]. rewrite ltb_nan_l, ltb_nan_r.
  cbn [fsub fmul fadd float_ops]. rewrite sub_nan_l, mul_nan_r.
  unfold truediv. cbn [feq fdiv of_Z float_ops].
  match goal with
  | |- context [PrimFloat.eqb ?c (b64_of_Z 0)] =>
      change (PrimFloat.eqb c (b64_of_Z 0)) with false
  end.
  cbn [bind]. rewrite div_nan_l, add_nan_r. reflexivity.
Qed.

(** A row whose [circulating_supply] is a NaN while [max_supply] is a number
    other than zero gets, with Python's rounding, a NaN for
    [score_tokenomics] and for [holder_score_100], and is then left out of
    the table of the dashboard at every threshold, 0 included. *)
Theorem nan_supply_row_never_shown (today : date) (r : row float) (s : scored float)
    (m : float) (min_holder : Z) (out : list (scored float)) :
  scored_from (PF := float_ops parse) today r s ->
  circulating_supply r = VNum nan ->
  max_supply r = VNum m ->
  PrimFloat.is_nan m = false ->
  PrimFloat.eqb m 0 = false ->
  col_score_tokenomics s = nan /\
  col_holder_score_100 s = nan /\
  ~ In s (filter_by_score (PF := float_ops parse) min_holder out).
Proof.
  intros (_ & _ & H2 & _ & _ & _ & H6) Hc Hm N Z.
  assert (T : col_score_tokenomics s = nan).
  { unfold score_tokenomics in H2.
    rewrite (circ_score_nan_binary64 r Hc Hm N Z) in H2. cbn [bind] in H2.
    destruct (dilution_score r) as [d|e]; [|discriminate].
    cbn [bind fmul fadd dec of_Z float_ops] in H2. injection H2 as <-.
    rewrite ?mul_nan_r, !add_nan_l, mul_nan_r. reflexivity. }
  assert (H : col_holder_score_100 s = nan).
  { rewrite H6, T. cbn [fadd float_ops].
    rewrite add_nan_r, !add_nan_l. reflexivity. }
  split; [exact T|]. split; [exact H|].
  unfold filter_by_score. intros I. apply filter_In in I. destruct I as [_ I].
  rewrite H in I. cbn [fle float_ops] in I. rewrite leb_nan_r in I. discriminate.
Qed.

End NaNSupply.

(** ** Missing cells *)

Section Missing.

Context {F : Type} {PF : PyFloat F}.

(** a missing cell, null or NaN, is scaled to the literal 0.5 *)
Lemma scale_isna (x : value F) (xmin xmax : F) :
  isna x = true -> scale x xmin xmax = Ok (dec 5 10).
Proof.
  intros H. apply scale_neutral.
  destruct x as [|v|s]; try discriminate; [left; reflexivity|].
  right. right. exists v. split; [reflexivity|]. left. exact H.
Qed.

Lemma years_since_not_text (today : date) (x : value F) :
  is_text x = false -> years_since today x = of_Z 0.
Proof. destruct x; [reflexivity..|discriminate]. Qed.

Lemma string_app_assoc (a b c : string) :
  ((a ++ b) ++ c)%string = (a ++ (b ++ c))%string.
Proof. induction a as [|x a IH]; simpl; [reflexivity|]. rewrite IH. reflexivity. Qed.

(** the text of a date followed by a dash and anything denotes that date *)
Lemma genesis_day_trailing (y m d : Z) (g : date) (t : string) :
  date_new y m d = Ok g ->
  genesis_day (isoformat g ++ String "-" t)%string = Ok g.
Proof.
  intros H. pose proof H as H'.
  apply date_new_inv in H'. destruct H' as (-> & Hy & Hm & Hd).
  pose proof (days_in_month_le y m).
  assert (S : split "-" (isoformat {| year := y; month := m; day := d |}
                         ++ String "-" t)%string
              = pad4 y :: pad2 m :: pad2 d :: split "-" t).
  { unfold isoformat. cbn [year month day].
    rewrite !string_app_assoc. cbn [String.append].
    rewrite pad4_digits, !pad2_digits.
    rewrite !split_digits_str_dash by (repeat constructor; apply mod10_digit).
    reflexivity. }
  unfold genesis_day. rewrite S.
  cbn [index nth_error bind].
  rewrite py_int_pad4 by lia. cbn [bind].
  rewrite py_int_pad2 by lia. cbn [bind].
  rewrite py_int_pad2 by lia. cbn [bind].
  exact H.
Qed.

(** [years_since] reads the first three parts of the text only: the text of a
    calendar date followed by a dash and anything at all is aged as the date
    itself, not rejected as malformed. *)
Theorem years_since_ignores_trailing_parts (today : date) (y m d : Z) (g : date)
    (t : string) :
  date_new y m d = Ok g ->
  years_since today (VStr (isoformat g ++ String "-" t)%string)
    = years_since today (VStr (isoformat g)).
Proof.
  intros H. unfold years_since.
  rewrite (@genesis_day_trailing y m d g t H), (@genesis_day_isoformat y m d g H).
  unfold isoformat. rewrite pad4_digits. reflexivity.
Qed.

End Missing.

(** ** Edges of the sub-scores *)

Section Edges.

Local Open Scope Q_scope.

Variable parse : string -> option xnum.

Local Hint Extern 0 (PyFloat xnum) => exact (xnum_ops parse) : typeclass_instances.

(** The liquidity component of the market score is 0, the worst, when
    [market_cap] is missing or zero, and also when [total_volume] is null or
    zero next to a usable market cap; a [total_volume] that is a NaN gives the
    neutral 0.5 instead. *)
Theorem liq_score_missing (r : row xnum) :
  (isna (market_cap r) = true \/ eq_zero (market_cap r) = true ->
   liq_score (PF := xnum_ops parse) r = Ok (XFin 0)) /\
  (forall m : Q,
     market_cap r = VNum (XFin m) -> ~ m == 0 ->
     truthy (total_volume r) = false ->
     liq_score (PF := xnum_ops parse) r = Ok (XFin 0)) /\
  (forall m : Q,
     market_cap r = VNum (XFin m) -> ~ m == 0 ->
     total_volume r = VNum XNaN ->
     liq_score (PF := xnum_ops parse) r = Ok (XFin (1 # 2))).
Proof.
  assert (Z : forall m, ~ m == 0 -> Qeq_bool m 0 = false).
  { intros m N. destruct (Qeq_bool m 0) eqn:E; [|reflexivity].
    apply Qeq_bool_iff in E. contradiction. }
  unfold liq_score. split; [|split].
  - intros [H|H]; rewrite H; [|rewrite orb_true_r]; reflexivity.
  - intros m Hm N Hv. rewrite Hm. xsimpl.
    change (inject_Z 0) with 0. rewrite is_Eq_compare, (Z m N).
    unfold py_or. rewrite Hv. xsimpl.
    rewrite (truediv_exact parse 0 N). cbn [bind].
    rewrite scale_exact. reflexivity.
  - intros m Hm N Hv. rewrite Hm, Hv. xsimpl.
    change (inject_Z 0) with 0. rewrite is_Eq_compare, (Z m N).
    unfold py_or. xsimpl. unfold truediv. xsimpl.
    change (inject_Z 0) with 0. rewrite is_Eq_compare, (Z m N). reflexivity.
Qed.

(** A row whose three fundamentals are missing, as nulls or as the NaN pandas
    puts in a numeric column, and whose genesis date is not a text, gets the
    personal score 4.25. *)
Theorem score_personal_missing (today : date) (r : row xnum) :
  isna (developer_score r) = true ->
  isna (community_score r) = true ->
  isna (sentiment_votes_up_percentage r) = true ->
  is_text (genesis_date r) = false ->
  score_personal_fundamental (PF := xnum_ops parse) today r = Ok (XFin (17 # 4)).
Proof.
  intros H1 H2 H3 H4. unfold score_personal_fundamental.
  rewrite !scale_isna, years_since_not_text by assumption. reflexivity.
Qed.


End Edges.

(** ** A text where a number is computed with *)

Section Aborts.

Context {F : Type} {PF : PyFloat F}.

Hypothesis divisors : divisors_nonzero.

Lemma rank_score_raises_TypeError (r : row F) (e : exn) :
  rank_score r = Raise e -> e = TypeError.
Proof.
  intros H. destruct (is_text (market_cap_rank r)) eqn:T.
  - unfold rank_score in H.
    destruct (market_cap_rank r); try discriminate. cbn in H. congruence.
  - destruct (rank_score_returns divisors r T) as (v & Hv). congruence.
Qed.

Lemma liq_score_raises_TypeError (r : row F) (e : exn) :
  liq_score r = Raise e -> e = TypeError.
Proof.
  destruct divisors as (_ & D2 & _).
  unfold liq_score.
  destruct (isna (market_cap r) || eq_zero (market_cap r)) eqn:G.
  - cbn [bind]. intros H.
    destruct (scale_returns (VNum (of_Z 0)) (dec 1 100) (dec 30 100) D2) as (v & Hv).
    congruence.
  - destruct (py_or (total_volume r) (VNum (of_Z 0))) as [|a|t],
             (market_cap r) as [|m|t']; cbn [py_truediv bind]; try congruence.
    cbn [isna eq_zero] in G. apply orb_false_elim in G. destruct G as [_ G].
    unfold truediv. rewrite G. cbn [bind]. intros H.
    destruct (scale_returns (VNum (fdiv a m)) (dec 1 100) (dec 30 100) D2) as (v & Hv).
    congruence.
Qed.

Lemma ath_score_raises_TypeError (r : row F) (e : exn) :
  ath_score r = Raise e -> e = TypeError.
Proof.
  intros H. destruct (is_text (ath_change_percentage r)) eqn:T.
  - unfold ath_score in H.
    destruct (ath_change_percentage r); try discriminate. cbn in H. congruence.
  - destruct (ath_score_returns divisors r T) as (v & Hv). congruence.
Qed.

Lemma score_market_raises_TypeError (r : row F) (e : exn) :
  score_market r = Raise e -> e = TypeError.
Proof.
  unfold score_market.
  destruct (rank_score r) as [a|e1] eqn:A; cbn [bind];
    [|intros H; injection H as <-; eapply rank_score_raises_TypeError; exact A].
  destruct (liq_score r) as [b|e2] eqn:B; cbn [bind];
    [|intros H; injection H as <-; eapply liq_score_raises_TypeError; exact B].
  destruct (ath_score r) as [c|e3] eqn:C; cbn [bind];
    [discriminate|intros H; injection H as <-; eapply ath_score_raises_TypeError; exact C].
Qed.

Lemma mapM_raises (A B : Type) (f : A -> result B) (l : list A) (e0 : exn) :
  (forall a e, f a = Raise e -> e = e0) ->
  Exists (fun a => f a = Raise e0) l ->
  mapM f l = Raise e0.
Proof.
  intros Hf H. induction H as [a l Ha|a l _ IH]; simpl.
  - rewrite Ha. reflexivity.
  - destruct (f a) as [b|e] eqn:E; simpl.
    + rewrite IH. reflexivity.
    + f_equal. eapply Hf. exact E.
Qed.

Lemma text_rank_aborts (today : date) (df : list (row F)) :
  existsb (fun r => is_text (market_cap_rank r)) df = true ->
  compute_scores today df = Raise TypeError.
Proof.
  intros H. apply existsb_exists in H. destruct H as (r & Hin & Hr).
  unfold compute_scores.
  rewrite (@mapM_raises _ _ score_market df TypeError).
  - reflexivity.
  - intros a e. apply score_market_raises_TypeError.
  - apply Exists_exists. exists r. split; [exact Hin|].
    unfold score_market, rank_score.
    destruct (market_cap_rank r); try discriminate. reflexivity.
Qed.

End Aborts.

(** With Python's rounding: one row with a text for [market_cap_rank] makes
    the scoring step raise TypeError for the whole frame; no row is scored,
    whatever the other rows hold. *)
Theorem text_rank_aborts_scoring (parse : string -> option float) (today : date)
    (df : list (row float)) :
  existsb (fun r => is_text (market_cap_rank r)) df = true ->
  compute_scores (PF := float_ops parse) today df = Raise TypeError.
Proof.
  intros H. apply text_rank_aborts; [apply divisors_nonzero_binary64|exact H].
Qed.

(** ** Fetching the fundamentals *)

Section Fetch.

Context {F : Type} {PF : PyFloat F}.

Variable get_coin : string -> result (string -> value F).

Lemma fold_left_append (A B : Type) (h : A -> B) (l : list A) (acc : list B) :
  fold_left (fun rows a => rows ++ [h a]) l acc = acc ++ map h l.
Proof.
  revert acc. induction l as [|a l IH]; intros acc; simpl.
  - rewrite app_nil_r. reflexivity.
  - rewrite IH, <- app_assoc. reflexivity.
Qed.

(** [fetch_fundamentals_for_ids] gives one row per requested id, in the order
    of the ids, whatever the requests do: a row carries its id, holds the
    five fields of the answer (null for an absent key) when the request
    succeeds, and five nulls when the request raises. *)
Theorem fetch_fundamentals_rows (ids : list string) :
  Forall2 (fetched get_coin) ids (fetch_fundamentals_for_ids get_coin ids).
Proof.
  unfold fetch_fundamentals_for_ids. rewrite fold_left_append. cbn [app].
  induction ids as [|cid ids IH]; constructor; [|exact IH].
  unfold fetched. destruct (get_coin cid) as [j|e]; cbn [bind try_or].
  - split; [reflexivity|]. split; [intros e H; discriminate|].
    intros j' H. injection H as <-. repeat split; reflexivity.
  - split; [reflexivity|]. split; [reflexivity|]. intros j H. discriminate.
Qed.

End Fetch.

(** ** The forty best ranks *)

Lemma StronglySorted_app_Forall (A : Type) (R : A -> A -> Prop) (a b : list A) (y : A) :
  StronglySorted R (a ++ b) -> In y b -> Forall (fun x => R x y) a.
Proof.
  induction a as [|x a IH]; simpl; intros S I; constructor.
  - inversion S as [|? ? _ Hx]; subst.
    rewrite Forall_forall in Hx. apply Hx. apply in_or_app. right. exact I.
  - apply IH; [|exact I]. inversion S; assumption.
Qed.

Section Selection.

(** [sort_values("market_cap_rank")] of pandas: when it returns, the rows are
    the same and stand in ascending order of rank, those without rank last *)
Variable sort_values : list (row xnum) -> result (list (row xnum)).

Hypothesis sort_values_permutes :
  forall l l', sort_values l = Ok l' -> Permutation l l'.

Hypothesis sort_values_sorts :
  forall l l', sort_values l = Ok l' ->
               StronglySorted (fun a b => rank_leb a b = true) l'.

(** When step 3 of [load_data] returns, it has kept at most 40 rows, as many
    as there are rows that are not stable or wrapped if these are fewer; every
    kept row is a row of the input that is not stable or wrapped; and every
    such row of the input that is left out ranks no better than each kept
    row. *)
Theorem select_markets_best_ranks (markets_all sel : list (row xnum)) :
  select_markets sort_values markets_all = Ok sel ->
  List.length sel
    = Nat.min 40 (List.length (filter (fun r => negb (is_stable_or_wrapped r)) markets_all)) /\
  Forall (fun r => In r markets_all /\ is_stable_or_wrapped r = false) sel /\
  (forall r, In r markets_all -> is_stable_or_wrapped r = false ->
             In r sel \/ Forall (fun s => rank_leb s r = true) sel).
Proof.
  unfold select_markets. cbv zeta.
  set (kept := filter (fun r => negb (is_stable_or_wrapped r)) markets_all).
  destruct (sort_values kept) as [l|e] eqn:E; cbn [bind]; [|discriminate].
  intros H. assert (Hs : sel = firstn 40 l) by congruence. clear H. subst sel.
  pose proof (sort_values_permutes E) as P.
  pose proof (sort_values_sorts E) as S.
  split; [|split].
  - rewrite length_firstn, (Permutation_length P). reflexivity.
  - apply Forall_forall. intros r I.
    assert (I' : In r kept).
    { apply (Permutation_in r (Permutation_sym P)).
      rewrite <- (firstn_skipn 40 l). apply in_or_app. left. exact I. }
    apply filter_In in I'. destruct I' as [I1 I2].
    split; [exact I1|]. apply negb_true_iff in I2. exact I2.
  - intros r I N.
    assert (I' : In r l).
    { apply (Permutation_in r P). apply filter_In. split; [exact I|].
      apply negb_true_iff. exact N. }
    rewrite <- (firstn_skipn 40 l) in I', S. apply in_app_or in I'.
    destruct I' as [I'|I']; [left; exact I'|right].
    exact (@StronglySorted_app_Forall _ (fun a b => rank_leb a b = true)
             (firstn 40 l) (skipn 40 l) r S I').
Qed.

End Selection.

Lemma rank_leb_total (a b : row xnum) :
  rank_leb a b = false -> rank_leb b a = true.
Proof.
  unfold rank_leb. destruct (rank_key a) as [p|], (rank_key b) as [q|];
    try reflexivity; try discriminate.
  intros H. apply Qle_bool_iff.
  destruct (Qle_bool p q) eqn:E; [discriminate|].
  destruct (Qlt_le_dec q p) as [L|L]; [apply Qlt_le_weak, L|].
  apply Qle_bool_iff in L. congruence.
Qed.

Lemma rank_leb_trans (a b c : row xnum) :
  rank_leb a b = true -> rank_leb b c = true -> rank_leb a c = true.
Proof.
  unfold rank_leb. destruct (rank_key a) as [p|], (rank_key b) as [q|],
    (rank_key c) as [u|]; try reflexivity; try discriminate.
  intros H1 H2. apply Qle_bool_iff in H1, H2. apply Qle_bool_iff.
  eapply Qle_trans; eassumption.
Qed.

Lemma insert_by_rank_perm (r : row xnum) (l : list (row xnum)) :
  Permutation (r :: l) (insert_by_rank r l).
Proof.
  induction l as [|x l IH]; simpl; [reflexivity|].
  destruct (rank_leb r x); [reflexivity|].
  rewrite perm_swap. apply perm_skip. exact IH.
Qed.

Lemma sort_by_rank_perm (l : list (row xnum)) : Permutation l (sort_by_rank l).
Proof.
  induction l as [|x l IH]; simpl; [constructor|].
  rewrite <- insert_by_rank_perm. apply perm_skip. exact IH.
Qed.

Lemma insert_by_rank_sorted (r : row xnum) (l : list (row xnum)) :
  StronglySorted (fun a b => rank_leb a b = true) l ->
  StronglySorted (fun a b => rank_leb a b = true) (insert_by_rank r l).
Proof.
  induction 1 as [|x l S IH Hx]; simpl; [repeat constructor|].
  destruct (rank_leb r x) eqn:E.
  - constructor; [constructor; assumption|]. constructor; [exact E|].
    rewrite Forall_forall in *. intros y I. eapply rank_leb_trans; [exact E|].
    apply Hx, I.
  - constructor; [exact IH|].
    rewrite Forall_forall in *. intros y I.
    apply (Permutation_in y (Permutation_sym (insert_by_rank_perm r l))) in I.
    destruct I as [<-|I]; [apply rank_leb_total, E|apply Hx, I].
Qed.

Lemma sort_by_rank_sorted (l : list (row xnum)) :
  StronglySorted (fun a b => rank_leb a b = true) (sort_by_rank l).
Proof.
  induction l as [|x l IH]; simpl; [constructor|].
  apply insert_by_rank_sorted, IH.
Qed.

(** ** Thresholds of the piecewise components *)

Section Thresholds.

Local Open Scope Q_scope.

Variable parse : string -> option xnum.

Local Hint Extern 0 (PyFloat xnum) => exact (xnum_ops parse) : typeclass_instances.


(** With a number for [ath_change_percentage] and [dd] its opposite, the
    all-time-high component is 0.2 below a drawdown of 10, rises linearly to
    1.0 at a drawdown of 80, and is 0.3 above 80. *)
Theorem ath_score_thresholds (r : row xnum) (a : Q) :
  ath_change_percentage r = VNum (XFin a) ->
  (- a < 10 -> ath_score (PF := xnum_ops parse) r = Ok (XFin (1 # 5))) /\
  (80 < - a -> ath_score (PF := xnum_ops parse) r = Ok (XFin (3 # 10))) /\
  (10 <= - a <= 80 ->
   exists v, ath_score (PF := xnum_ops parse) r = Ok (XFin v) /\
             v == (1 # 5) + (4 # 5) * (- a - 10) * (1 # 70) /\
             1 # 5 <= v <= 1).
Proof.
  intros Ha. unfold ath_score. rewrite Ha. xsimpl.
  change (inject_Z 10) with 10. change (inject_Z 80) with 80.
  assert (C1 : (Qred (- a) ?= 10) = (- a ?= 10)) by (rewrite Qred_correct; reflexivity).
  assert (C2 : (80 ?= Qred (- a)) = (80 ?= - a)) by (rewrite Qred_correct; reflexivity).
  rewrite C1, C2. split; [|split].
  - intros L. apply -> Qlt_alt in L. rewrite L. reflexivity.
  - intros L. pose proof L as L'. apply -> Qlt_alt in L'. rewrite L'.
    destruct (- a ?= 10) eqn:A;
      [apply Qeq_alt in A; lra|apply Qlt_alt in A; lra|reflexivity].
  - intros [L1 L2].
    assert (A : is_Lt (- a ?= 10) = false).
    { destruct (- a ?= 10) eqn:A; try reflexivity. apply Qlt_alt in A. lra. }
    assert (B : is_Lt (80 ?= - a) = false).
    { destruct (80 ?= - a) eqn:B; try reflexivity. apply Qlt_alt in B. lra. }
    rewrite A, B.
    rewrite truediv_exact by (unfold inject_Z; lra). cbn [bind]. xsimpl.
    eexists. split; [reflexivity|].
    assert (V : Qred (Qred (2 # 10)
                      + Qred (Qred (Qred (8 # 10) * Qred (Qred (- a) - 10)) / inject_Z 70))
                == (1 # 5) + (4 # 5) * (- a - 10) * (1 # 70)).
    { unfold inject_Z. qred_all. field. }
    split; [exact V|]. rewrite V. lra.
Qed.

End Thresholds.

(** ** Decoding a date text *)

(** The parser of [years_since] reads four digits, a dash, two digits, a dash
    and two digits as the year, month and day written, and yields
    [date(y, m, d)]: a date for a day of the calendar, ValueError
    otherwise. *)
Theorem genesis_day_digits (y m d : Z) :
  (0 <= y <= 9999)%Z -> (0 <= m <= 99)%Z -> (0 <= d <= 99)%Z ->
  genesis_day (isoformat {| year := y; month := m; day := d |}) = date_new y m d.
Proof.
  intros Hy Hm Hd. unfold genesis_day. rewrite split_isoformat.
  cbn [year month day index nth_error bind].
  rewrite py_int_pad4 by lia. cbn [bind].
  rewrite py_int_pad2 by lia. cbn [bind].
  rewrite py_int_pad2 by lia. reflexivity.
Qed.

(** with Python's rounding, for fundamentals that are nulls or NaN *)
Lemma score_personal_missing_binary64 (parse : string -> option float)
    (today : date) (r : row float) :
  isna (PF := float_ops parse) (developer_score r) = true ->
  isna (PF := float_ops parse) (community_score r) = true ->
  isna (PF := float_ops parse) (sentiment_votes_up_percentage r) = true ->
  is_text (genesis_date r) = false ->
  score_personal_fundamental (PF := float_ops parse) today r = Ok 4.25%float.
Proof.
  intros H1 H2 H3 H4. unfold score_personal_fundamental.
  rewrite !scale_isna, years_since_not_text by assumption.
  vm_compute. reflexivity.
Qed.

(** ** The further properties at concrete rows *)

Lemma scale_monotone_witness :
  exists u v,
    scale (PF := X) (VNum (XFin 5)) (XFin (-15)) (XFin 40) = Ok (XFin u) /\
    scale (PF := X) (VNum (XFin 10)) (XFin (-15)) (XFin 40) = Ok (XFin v) /\
    (u <= v)%Q.
Proof.
  apply (scale_monotone no_text (VNum (XFin 5)) (VNum (XFin 10))
           (p := 5) (q := 10) (a := -15) (b := 40)); try reflexivity.
  unfold Qle; simpl; lia.
Defined.

Lemma compute_scores_returns_binary64_witness :
  exists out,
    compute_scores (PF := B) d20261104 [btc_row; null_row "eth" "Ethereum"] = Ok out /\
    Forall2 (scored_from (PF := B) d20261104) [btc_row; null_row "eth" "Ethereum"] out.
Proof.
  apply (compute_scores_returns_binary64 no_text d20261104
           [btc_row; null_row "eth" "Ethereum"]).
  reflexivity.
Defined.

Lemma scale_range_binary64_witness :
  exists r,
    scale (PF := B) (VNum 5%float) (-15)%float 40%float = Ok r /\
    PrimFloat.leb 0 r && PrimFloat.leb r 1 = true.
Proof.
  eexists. split; [vm_compute; reflexivity|].
  apply (scale_range_binary64 no_text (VNum 5%float) (-15)%float 40%float);
    vm_compute; reflexivity.
Defined.


Lemma filter_above_reach_is_empty_witness :
  exists out,
    compute_scores (PF := X) d20261104 [btc_row; nan_fundamentals_row] = Ok out /\
    filter_by_score (PF := X) 90 out = [].
Proof.
  apply (filter_above_reach_is_empty no_text d20261104
           [btc_row; nan_fundamentals_row] (min_holder := 90%Z)); [reflexivity|lia].
Defined.

Lemma nan_supply_row_never_shown_witness :
  exists s,
    compute_scores (PF := B) d20261104
      [with_supply btc_row (VNum nan) (VNum 21000000%float)] = Ok [s] /\
    col_score_tokenomics s = nan /\
    col_holder_score_100 s = nan /\
    ~ In s (filter_by_score (PF := B) 0 [s]).
Proof.
  eexists. split; [vm_compute; reflexivity|].
  eapply (nan_supply_row_never_shown (parse := no_text) (today := d20261104)
            (r := with_supply btc_row (VNum nan) (VNum 21000000%float))
            (m := 21000000%float) 0%Z _); try reflexivity.
  unfold scored_from. repeat split; vm_compute; reflexivity.
Defined.

Lemma liq_score_missing_witness :
  liq_score (PF := X) (null_row "btc" "Bitcoin") = Ok (XFin 0) /\
  liq_score (PF := X) nan_fundamentals_row = Ok (XFin (1 # 2)).
Proof.
  split.
  - apply (proj1 (liq_score_missing no_text (null_row "btc" "Bitcoin"))).
    left. reflexivity.
  - apply (proj2 (proj2 (liq_score_missing no_text nan_fundamentals_row))
             400000000000%Q); [reflexivity| |reflexivity].
    intros H. discriminate H.
Defined.

Lemma score_personal_missing_witness :
  score_personal_fundamental (PF := X) d20261104 nan_fundamentals_row
    = Ok (XFin (17 # 4)).
Proof.
  apply (score_personal_missing no_text d20261104 nan_fundamentals_row);
    reflexivity.
Defined.


Lemma years_since_ignores_trailing_parts_witness :
  years_since (PF := B) d20261104 (VStr "2015-07-30-to be confirmed")
    = years_since (PF := B) d20261104 (VStr "2015-07-30").
Proof.
  apply (years_since_ignores_trailing_parts (PF := B) d20261104
           2015%Z 7%Z 30%Z
           (g := {| year := 2015; month := 7; day := 30 |}) "to be confirmed").
  reflexivity.
Defined.

Lemma text_rank_aborts_scoring_witness :
  compute_scores (PF := B) d20261104 [btc_row; text_rank_row; null_row "eth" "Ethereum"]
    = Raise TypeError.
Proof.
  apply (text_rank_aborts_scoring no_text d20261104
           [btc_row; text_rank_row; null_row "eth" "Ethereum"]).
  reflexivity.
Defined.

Lemma compute_scores_app_witness :
  exists out1 out2,
    compute_scores (PF := X) d20261104 [btc_row] = Ok out1 /\
    compute_scores (PF := X) d20261104 [nan_fundamentals_row] = Ok out2 /\
    compute_scores (PF := X) d20261104 ([btc_row] ++ [nan_fundamentals_row])
      = Ok (out1 ++ out2).
Proof.
  eexists. eexists. split; [vm_compute; reflexivity|].
  split; [vm_compute; reflexivity|].
  apply (compute_scores_app (PF := X) d20261104 [btc_row] [nan_fundamentals_row]);
    vm_compute; reflexivity.
Defined.

Lemma select_markets_best_ranks_witness :
  List.length (sort_by_rank [nan_fundamentals_row; btc_row]) = 2%nat /\
  Forall (fun r => In r [nan_fundamentals_row; null_row "usdt" "Tether"; btc_row]
                   /\ is_stable_or_wrapped r = false)
         (sort_by_rank [nan_fundamentals_row; btc_row]).
Proof.
  assert (P : forall l l', Ok (sort_by_rank l) = Ok l' -> Permutation l l').
  { intros l l' E. assert (E' : sort_by_rank l = l') by congruence.
    rewrite <- E'. apply sort_by_rank_perm. }
  assert (S : forall l l', Ok (sort_by_rank l) = Ok l' ->
              StronglySorted (fun a b => rank_leb a b = true) l').
  { intros l l' E. assert (E' : sort_by_rank l = l') by congruence.
    rewrite <- E'. apply sort_by_rank_sorted. }
  assert (E : select_markets (fun l => Ok (sort_by_rank l))
                 [nan_fundamentals_row; null_row "usdt" "Tether"; btc_row]
               = Ok (sort_by_rank [nan_fundamentals_row; btc_row]))
    by (vm_compute; reflexivity).
  destruct (@select_markets_best_ranks (fun l => Ok (sort_by_rank l)) P S
              [nan_fundamentals_row; null_row "usdt" "Tether"; btc_row]
              (sort_by_rank [nan_fundamentals_row; btc_row]) E)
    as (H1 & H2 & _).
  split; [exact H1|exact H2].
Defined.


Lemma ath_score_thresholds_witness :
  exists v, ath_score (PF := X) nan_fundamentals_row = Ok (XFin v) /\ Qeq v (3 # 7).
Proof.
  destruct (@ath_score_thresholds no_text nan_fundamentals_row (-30) eq_refl)
    as (_ & _ & H).
  destruct H as (v & E & V & _).
  - split; unfold Qle; simpl; lia.
  - exists v. split; [exact E|]. rewrite V. reflexivity.
Defined.

Lemma genesis_day_digits_witness :
  genesis_day "2015-02-30" = Raise ValueError /\
  genesis_day "2016-02-29" = Ok {| year := 2016; month := 2; day := 29 |}.
Proof.
  split.
  - apply (@genesis_day_digits 2015 2 30); lia.
  - apply (@genesis_day_digits 2016 2 29); lia.
Defined.
